(** * The SQLite tool dispatcher of [mcpsqlite.py]

    A shallow embedding of [call_tool], the single function through which
    every tool call of the server passes, and the properties of its reply
    and of its use of the database connection.

    The SQL engine and the file system are collaborators of the program:
    the engine is an interface ([Engine]) whose operations are the calls the
    source makes on the [sqlite3] module, each of which may raise. The
    dispatcher is written once over that interface; a small in-memory
    instance ([Toy]) is used to run it on concrete inputs. *)

From stdpp Require Import base strings gmap list pretty.
From Stdlib Require Import ZArith Ascii.

Local Open Scope Z_scope.

(** ** Python values and strings *)

(** The values that reach the dispatcher: arguments decoded by the
    transport and cells fetched from the engine. [PyObj] stands for any
    other object (a float, a bytes object, a list ...), given by the two
    things the source asks of a value: its [str()] and its truth value. *)
Inductive PyVal : Type :=
  | PyNone
  | PyBool (b : bool)
  | PyInt (z : Z)
  | PyStr (s : string)
  | PyObj (repr : string) (truthy : bool).

(** [str(v)], which is also what an f-string field [{v}] renders. *)
Definition py_str (v : PyVal) : string :=
  match v with
  | PyNone => "None"
  | PyBool true => "True"
  | PyBool false => "False"
  | PyInt z => pretty z
  | PyStr s => s
  | PyObj r _ => r
  end.

(** The truth value tested by [if v:] and [if not v:]. *)
Definition py_truthy (v : PyVal) : bool :=
  match v with
  | PyNone => false
  | PyBool b => b
  | PyInt z => negb (z =? 0)
  | PyStr s => negb (String.eqb s "")
  | PyObj _ t => t
  end.

(** [v is not None]. *)
Definition is_not_none (v : PyVal) : bool :=
  match v with PyNone => false | _ => true end.

(** The line feed of the source's ["\n"]. *)
Definition nl : string := String "010"%char EmptyString.

(** A character of a [string] is read as the code point of the same number
    (0 to 255). [isspace] is [str.isspace] on that range. *)
Definition isspace (c : ascii) : bool :=
  let n := N_of_ascii c in
  (((9 <=? n) && (n <=? 13)) || ((28 <=? n) && (n <=? 32))
   || (n =? 133) || (n =? 160))%N.

(** [str.lower] on one character: A-Z and the upper-case letters of the
    Latin-1 block move up by 32. *)
Definition tolower (c : ascii) : ascii :=
  let n := N_of_ascii c in
  if (((65 <=? n) && (n <=? 90)) || ((192 <=? n) && (n <=? 214))
      || ((216 <=? n) && (n <=? 222)))%N
  then ascii_of_N (n + 32) else c.

Fixpoint lower (s : string) : string :=
  match s with
  | EmptyString => EmptyString
  | String c s' => String (tolower c) (lower s')
  end.

Fixpoint lstrip (s : string) : string :=
  match s with
  | EmptyString => EmptyString
  | String c s' => if isspace c then lstrip s' else s
  end.

Fixpoint rstrip (s : string) : string :=
  match s with
  | EmptyString => EmptyString
  | String c s' =>
      match rstrip s' with
      | EmptyString => if isspace c then EmptyString else String c EmptyString
      | r => String c r
      end
  end.

(** [s.strip()] *)
Definition strip (s : string) : string := rstrip (lstrip s).

(** [s.startswith(prefixes)] with a tuple of prefixes. *)
Definition startswith (s : string) (prefixes : list string) : bool :=
  existsb (fun p => String.prefix p s) prefixes.

(** [sep.join(xs)] *)
Definition join (sep : string) (xs : list string) : string :=
  String.concat sep xs.

(** [s * n] *)
Fixpoint str_mul (s : string) (n : nat) : string :=
  match n with
  | O => EmptyString
  | S n' => s +:+ str_mul s n'
  end.

(** The test of line 107: is the statement a read? *)
Definition is_read_query (query : string) : bool :=
  startswith (lower (strip query)) ["select"; "pragma"].

(** The lines of a text: the pieces between line feeds, a final line feed
    ending the last line rather than opening an empty one. *)
Fixpoint lines (s : string) : list string :=
  match s with
  | EmptyString => []
  | String c s' =>
      if Ascii.eqb c "010" then EmptyString :: lines s'
      else match lines s' with
           | [] => [String c EmptyString]
           | l :: ls => String c l :: ls
           end
  end.

(** No line feed occurs in [s]. *)
Fixpoint one_line (s : string) : bool :=
  match s with
  | EmptyString => true
  | String c s' => negb (Ascii.eqb c "010") && one_line s'
  end.

(** A text of the given lines, each ended by a line feed. *)
Definition unlines (ls : list string) : string :=
  fold_right (fun l acc => l +:+ nl +:+ acc) "" ls.

(** ** Replies, exceptions, the engine *)

(** [TextContent(type="text", text=...)] *)
Record TextContent : Type := mkText { type : string; text : string }.

Definition text_reply (body : string) : list TextContent :=
  [ {| type := "text"; text := body |} ].

(** The two handlers of [call_tool] tell [sqlite3.Error] from every other
    [Exception]; each carries the message [str(e)]. *)
Inductive exn : Type :=
  | SqliteError (msg : string)
  | OtherError (msg : string).

Inductive Outcome (A : Type) : Type :=
  | Ok (a : A)
  | Raise (e : exn).
Arguments Ok {A} a.
Arguments Raise {A} e.

(** The [sqlite3] calls of the source as transitions of an engine state
    [St], which holds the database file's content together with the state
    of the connection and its cursor. [connect] is lines 70-71,
    [description] and [rowcount] read the cursor. The last four fields are
    the messages of the interpreter's own exceptions: [execute] given a
    value that is not a string, indexing an empty row, unpacking a row of
    the wrong length into six names, and iterating [None]. *)
Class Engine : Type := {
  St : Type;
  connect : St -> Outcome unit * St;
  execute : string -> St -> Outcome unit * St;
  fetchall : St -> Outcome (list (list PyVal)) * St;
  description : St -> option (list string);
  rowcount : St -> Z;
  commit : St -> Outcome unit * St;
  close : St -> St;
  msg_execute_arg : PyVal -> string;
  msg_index : string;
  msg_unpack : nat -> string;
  msg_not_iterable : string
}.

(** What the dispatcher does to its collaborators, in order. *)
Inductive Event : Type :=
  | EConnect
  | EExecute (sql : string)
  | EFetchAll
  | ECommit
  | EClose.

(** Connections opened and not closed by a sequence of events. *)
Fixpoint open_connections (tr : list Event) : Z :=
  match tr with
  | [] => 0
  | EConnect :: tr' => 1 + open_connections tr'
  | EClose :: tr' => open_connections tr' - 1
  | _ :: tr' => open_connections tr'
  end.

(** [DB_PATH] *)
Definition DB_PATH : string :=
  "C:\Users\your-user-name\Databases\sqlite-database.db".

(** The statement of line 74. *)
Definition LIST_TABLES_SQL : string :=
  "SELECT name FROM sqlite_master WHERE type='table'".

(** ** The dispatcher *)

Section Dispatcher.
Context `{Engine}.

(** What a call can observe and change: whether the database file is
    there, the engine, and the calls made on it so far. *)
Record World : Type := mkWorld {
  file_exists : bool;
  engine : St;
  trace : list Event
}.

(** Statements of the source: they read and change the world and either
    yield a value or raise. *)
Definition Py (A : Type) : Type := World -> Outcome A * World.

#[global] Instance Py_ret : MRet Py := fun A a w => (Ok a, w).

#[global] Instance Py_bind : MBind Py := fun A B k m w =>
  match m w with
  | (Ok a, w') => k a w'
  | (Raise e, w') => (Raise e, w')
  end.

Definition raise {A : Type} (e : exn) : Py A := fun w => (Raise e, w).

(** [try: body  except ... as e: handler e] where the handlers together
    take every exception. *)
Definition try_except {A : Type} (body : Py A) (handler : exn -> Py A) : Py A :=
  fun w =>
    match body w with
    | (Ok a, w') => (Ok a, w')
    | (Raise e, w') => handler e w'
    end.

(** [os.path.exists(DB_PATH)] *)
Definition os_path_exists : Py bool := fun w => (Ok (file_exists w), w).

(** A call on the engine: recorded, then run on the engine's state. *)
Definition engine_call {A : Type} (ev : Event) (op : St -> Outcome A * St) : Py A :=
  fun w =>
    let (r, s) := op (engine w) in
    (r, {| file_exists := file_exists w; engine := s; trace := trace w ++ [ev] |}).

Definition sqlite3_connect : Py unit := engine_call EConnect connect.
Definition cursor_execute (sql : string) : Py unit :=
  engine_call (EExecute sql) (execute sql).
Definition cursor_fetchall : Py (list (list PyVal)) :=
  engine_call EFetchAll fetchall.
Definition conn_commit : Py unit := engine_call ECommit commit.
Definition conn_close : Py unit :=
  engine_call EClose (fun s => (Ok tt, close s)).
Definition cursor_description : Py (option (list string)) :=
  fun w => (Ok (description (engine w)), w).
Definition cursor_rowcount : Py Z := fun w => (Ok (rowcount (engine w)), w).

(** [[f x for x in xs]] where [f] may raise. *)
Fixpoint comprehension {A B : Type} (f : A -> Py B) (xs : list A) : Py (list B) :=
  match xs with
  | [] => mret []
  | x :: rest =>
      y ← f x;
      ys ← comprehension f rest;
      mret (y :: ys)
  end.

(** [table[0]] *)
Definition first_cell (row : list PyVal) : Py PyVal :=
  match row with
  | [] => raise (OtherError msg_index)
  | v :: _ => mret v
  end.

(** How a block of the [try] body ends: it falls through to
    [conn.close()] with [result] bound, or it leaves [call_tool] at once
    through a [return]. *)
Inductive Completion : Type :=
  | Falls (result : string)
  | Returns (reply : list TextContent).

(** Lines 74-77. *)
Definition list_tables_block : Py Completion :=
  cursor_execute LIST_TABLES_SQL;;
  tables ← cursor_fetchall;
  table_names ← comprehension first_cell tables;
  mret (Falls ("Tables in database:" +:+ nl
               +:+ join nl (map (fun name => "- " +:+ py_str name) table_names))).

(** Lines 90-99: the loop over [columns], [result] being the text built
    so far. Line 91 binds [name] anew at every turn; after the loop only
    the log line reads it. *)
Fixpoint describe_loop (columns : list (list PyVal)) (result : string) : Py string :=
  match columns with
  | [] => mret result
  | col :: rest =>
      match col with
      | [cid; name; type_; notnull; default; pk] =>
          let result := result +:+ ("- " +:+ py_str name +:+ ": " +:+ py_str type_) in
          let result := if py_truthy pk then result +:+ " (PRIMARY KEY)" else result in
          let result := if py_truthy notnull then result +:+ " NOT NULL" else result in
          let result :=
            if is_not_none default then result +:+ (" DEFAULT " +:+ py_str default)
            else result in
          describe_loop rest (result +:+ nl)
      | _ => raise (OtherError (msg_unpack (List.length col)))
      end
  end.

(** Lines 80-99. *)
Definition describe_table_block (arguments : gmap string PyVal) : Py Completion :=
  let table_name := default PyNone (arguments !! "table_name") in
  if negb (py_truthy table_name) then
    mret (Returns (text_reply "Error: table_name is required"))
  else
    cursor_execute ("PRAGMA table_info(" +:+ py_str table_name +:+ ")");;
    columns ← cursor_fetchall;
    match columns with
    | [] => mret (Falls ("Table '" +:+ py_str table_name +:+ "' not found"))
    | _ =>
        result ← describe_loop columns
                   ("Schema for table '" +:+ py_str table_name +:+ "':" +:+ nl);
        mret (Falls result)
    end.

(** Lines 115-116: the loop over [rows]. *)
Fixpoint rows_loop (rows : list (list PyVal)) (result : string) : string :=
  match rows with
  | [] => result
  | row :: rest =>
      rows_loop rest (result +:+ (join " | " (map py_str row) +:+ nl))
  end.

(** Lines 102-121. [cursor.execute] takes a string only. *)
Definition run_query_block (arguments : gmap string PyVal) : Py Completion :=
  let query := default PyNone (arguments !! "query") in
  if negb (py_truthy query) then
    mret (Returns (text_reply "Error: query is required"))
  else
    match query with
    | PyStr q =>
        cursor_execute q;;
        if is_read_query q then
          rows ← cursor_fetchall;
          match rows with
          | [] => mret (Falls "Query executed successfully. No results returned.")
          | _ =>
              d ← cursor_description;
              match d with
              | None => raise (OtherError msg_not_iterable)
              | Some columns =>
                  let result := "Query results:" +:+ nl in
                  let result := result +:+ (join " | " columns +:+ nl) in
                  let result :=
                    result +:+ (str_mul "-" (String.length (join " | " columns)) +:+ nl) in
                  mret (Falls (rows_loop rows result))
              end
          end
        else
          conn_commit;;
          n ← cursor_rowcount;
          mret (Falls ("Query executed successfully. " +:+ pretty n +:+ " rows affected."))
    | _ => raise (OtherError (msg_execute_arg query))
    end.

(** The chain of lines 73-124: the block chosen by the tool's name. *)
Definition block (name : string) (arguments : gmap string PyVal) : Py Completion :=
  if String.eqb name "list_tables" then list_tables_block
  else if String.eqb name "describe_table" then describe_table_block arguments
  else if String.eqb name "run_query" then run_query_block arguments
  else mret (Falls ("Unknown tool: " +:+ name)).

(** Lines 126-128 after a block that fell through; nothing after a
    [return]. *)
Definition finish (c : Completion) : Py (list TextContent) :=
  match c with
  | Returns reply => mret reply
  | Falls result => conn_close;; mret (text_reply result)
  end.

(** Lines 130-135. *)
Definition handlers (e : exn) : Py (list TextContent) :=
  match e with
  | SqliteError msg => mret (text_reply ("SQLite error: " +:+ msg))
  | OtherError msg => mret (text_reply ("Error: " +:+ msg))
  end.

(** [call_tool], lines 62-135. The calls on [logger] write to the log
    only and are left out. *)
Definition call_tool (name : string) (arguments : gmap string PyVal)
  : Py (list TextContent) :=
  found ← os_path_exists;
  if negb found then
    mret (text_reply ("Error: Database file not found at " +:+ DB_PATH))
  else
    try_except
      (sqlite3_connect;;
       c ← block name arguments;
       finish c)
      handlers.

(** The world after a call [ev] on the engine that left it in [s]. *)
Definition after (ev : Event) (w : World) (s : St) : World :=
  {| file_exists := file_exists w; engine := s; trace := trace w ++ [ev] |}.

(** The world once [connect] has been called and left the engine in [s]. *)
Definition connected (w : World) (s : St) : World := after EConnect w s.

End Dispatcher.

Arguments World _ : clear implicits.
Arguments World {_}.

(** ** Words of the specification *)

(** A reply of one text segment that is not empty. *)
Definition single_text (reply : list TextContent) : Prop :=
  exists body, reply = text_reply body /\ body ≠ "".

(** What a block leaves behind is never empty. *)
Definition completes_well (c : Completion) : Prop :=
  match c with
  | Falls result => result ≠ ""
  | Returns reply => single_text reply
  end.

(** The argument [key] is absent or the empty string. *)
Definition missing_or_empty (arguments : gmap string PyVal) (key : string) : Prop :=
  arguments !! key = None \/ arguments !! key = Some (PyStr "").

(** One row of [PRAGMA table_info]: the six values that line 91 unpacks. *)
Record Column : Type := mkColumn {
  cid : PyVal;
  col_name : PyVal;
  col_type : PyVal;
  notnull : PyVal;
  dflt_value : PyVal;
  pk : PyVal
}.

Definition column_row (c : Column) : list PyVal :=
  [cid c; col_name c; col_type c; notnull c; dflt_value c; pk c].

(** The line of a column as the specification words it: name and type,
    then each suffix that applies, in this order. *)
Definition column_line (c : Column) : string :=
  "- " +:+ py_str (col_name c) +:+ ": " +:+ py_str (col_type c)
  +:+ (if py_truthy (pk c) then " (PRIMARY KEY)" else "")
  +:+ (if py_truthy (notnull c) then " NOT NULL" else "")
  +:+ (if is_not_none (dflt_value c)
       then " DEFAULT " +:+ py_str (dflt_value c) else "").

(** The line of a fetched row. *)
Definition row_line (row : list PyVal) : string :=
  join " | " (map py_str row).

(** The grid of a result as the specification words it: the column names,
    as many dashes as that line is long, then the rows. *)
Definition grid (columns : list string) (rows : list (list PyVal)) : list string :=
  join " | " columns
  :: str_mul "-" (String.length (join " | " columns))
  :: map row_line rows.

(** [p] occurs somewhere in [s]. *)
Fixpoint occurs (p s : string) : bool :=
  String.prefix p s
  || match s with
     | EmptyString => false
     | String _ s' => occurs p s'
     end.

(** The argument bags [{"query": q}] and [{"table_name": t}]. *)
Definition query_args (q : string) : gmap string PyVal :=
  {[ "query" := PyStr q ]}.

Definition table_args (t : string) : gmap string PyVal :=
  {[ "table_name" := PyStr t ]}.

(** ** The registry: [list_tools]

    The argument models of lines 28-38, each given by its docstring and
    its annotated fields; no field has a default, so each is required in
    the schema derived from the model. *)
Record Model : Type := mkModel {
  model_name : string;
  model_doc : string;
  model_fields : list (string * string)
}.

Definition ListTablesArgs : Model :=
  {| model_name := "ListTablesArgs";
     model_doc := "Arguments for listing tables - no arguments needed";
     model_fields := [] |}.

Definition DescribeTableArgs : Model :=
  {| model_name := "DescribeTableArgs";
     model_doc := "Arguments for describing a table";
     model_fields := [("table_name", "str")] |}.

Definition RunQueryArgs : Model :=
  {| model_name := "RunQueryArgs";
     model_doc := "Arguments for running a SQL query";
     model_fields := [("query", "str")] |}.

(** [Tool(name=..., description=..., inputSchema=...)]; the schema is
    kept as the model it is derived from. *)
Record Tool : Type := mkTool {
  tool_name : string;
  tool_description : string;
  inputSchema : Model
}.

(** [list_tools], lines 41-59. *)
Definition list_tools : list Tool :=
  [ {| tool_name := "list_tables";
       tool_description := "List all tables in the database";
       inputSchema := ListTablesArgs |};
    {| tool_name := "describe_table";
       tool_description := "Get table structure/schema";
       inputSchema := DescribeTableArgs |};
    {| tool_name := "run_query";
       tool_description := "Execute SQL query";
       inputSchema := RunQueryArgs |} ].

(** The names of the fields a tool's schema requires. *)
Definition required_arguments (t : Tool) : list string :=
  map fst (model_fields (inputSchema t)).

(** ** The calls of a run

    The calls [call_tool] makes on the engine when the database file is
    there and nothing raises, read off lines 70-126. *)
Definition plan (name : string) (arguments : gmap string PyVal) : list Event :=
  if String.eqb name "list_tables" then
    [EConnect; EExecute LIST_TABLES_SQL; EFetchAll; EClose]
  else if String.eqb name "describe_table" then
    let table_name := default PyNone (arguments !! "table_name") in
    if py_truthy table_name then
      [EConnect; EExecute ("PRAGMA table_info(" +:+ py_str table_name +:+ ")");
       EFetchAll; EClose]
    else [EConnect]
  else if String.eqb name "run_query" then
    let query := default PyNone (arguments !! "query") in
    if py_truthy query then
      match query with
      | PyStr q =>
          [EConnect; EExecute q; (if is_read_query q then EFetchAll else ECommit);
           EClose]
      | _ => [EConnect]
      end
    else [EConnect]
  else [EConnect; EClose].

(** How the replies of a tool begin when its block falls through to line
    126. *)
Definition success_prefixes (name : string) : list string :=
  if String.eqb name "list_tables" then ["Tables in database:" +:+ nl]
  else if String.eqb name "describe_table" then ["Table '"; "Schema for table '"]
  else if String.eqb name "run_query" then
    ["Query results:" +:+ nl; "Query executed successfully. "]
  else ["Unknown tool: " +:+ name].

(** How the replies of lines 67, 82, 104, 132 and 135 begin. *)
Definition is_error_reply (body : string) : bool :=
  startswith body ["Error: "; "SQLite error: "].

(** What the calls [tr] made by a block and its outcome [r] have to do
    with the plan: a block that falls through has made the calls planned
    between [connect] and [close]; one that returns early was planned to
    make none; one that raises stopped somewhere on the plan. No block
    opens or closes a connection. *)
Definition block_outcome (name : string) (arguments : gmap string PyVal)
    (tr : list Event) (r : Outcome Completion) : Prop :=
  open_connections tr = 0
  /\ (EClose ∉ tr)
  /\ match r with
     | Ok (Falls result) =>
         plan name arguments = EConnect :: (tr ++ [EClose])
         /\ startswith result (success_prefixes name) = true
     | Ok (Returns reply) =>
         tr = [] /\ plan name arguments = [EConnect]
         /\ exists body, reply = text_reply body /\ is_error_reply body = true
     | Raise e => exists rest, plan name arguments = EConnect :: (tr ++ rest)
     end.

(** The same for a whole call that replied [body], the database file
    being there or not. *)
Definition call_outcome (found : bool) (name : string)
    (arguments : gmap string PyVal) (tr : list Event) (body : string) : Prop :=
  if found then
    (tr = plan name arguments /\ open_connections tr = 0
     /\ startswith body (success_prefixes name) = true)
    \/ (tr `prefix_of` plan name arguments /\ tr ≠ [] /\ (EClose ∉ tr)
        /\ open_connections tr = 1 /\ is_error_reply body = true)
  else tr = [] /\ body = "Error: Database file not found at " +:+ DB_PATH.

(** The reply of the handlers of lines 130-135 to an exception. *)
Definition error_text (e : exn) : string :=
  match e with
  | SqliteError msg => "SQLite error: " +:+ msg
  | OtherError msg => "Error: " +:+ msg
  end.

(** Every character of [s] is white space. *)
Fixpoint all_space (s : string) : bool :=
  match s with
  | EmptyString => true
  | String c s' => isspace c && all_space s'
  end.

(** No character of [s] is white space. *)
Fixpoint no_space (s : string) : bool :=
  match s with
  | EmptyString => true
  | String c s' => negb (isspace c) && no_space s'
  end.



(** An engine on which everything succeeds but [commit], as when another
    connection holds the database. *)
Module Busy.

Definition busy_commit (s : list Event) : Outcome unit * list Event :=
  (Raise (SqliteError "database is locked"), s ++ [ECommit]).

#[export] Instance busy : Engine := {|
  St := list Event;
  connect := fun s => (Ok tt, s ++ [EConnect]);
  execute := fun sql s => (Ok tt, s ++ [EExecute sql]);
  fetchall := fun s => (Ok [], s ++ [EFetchAll]);
  description := fun _ => None;
  rowcount := fun _ => -1;
  commit := busy_commit;
  close := fun s => s ++ [EClose];
  msg_execute_arg := fun _ => "execute() argument 1 must be str";
  msg_index := "tuple index out of range";
  msg_unpack := fun _ => "not enough values to unpack";
  msg_not_iterable := "'NoneType' object is not iterable"
|}.

Definition world : World :=
  {| file_exists := true; engine := []; trace := [] |}.

End Busy.

(** Argument bags whose values are numbers. *)
Definition number_query_args : gmap string PyVal := {[ "query" := PyInt 5 ]}.

Definition zero_args : gmap string PyVal :=
  <[ "table_name" := PyInt 0 ]> {[ "query" := PyInt 0 ]}.

(** ** A small engine to run the dispatcher on

    One table, [t(id INTEGER PRIMARY KEY, x INTEGER NOT NULL DEFAULT 0)],
    of which the [x] values are kept; writes go to a working copy that
    [commit] makes durable and [close] drops. Only the statements below are
    understood, everything else is a syntax error. *)
Module Toy.

Record State : Type := mkState {
  openable : bool;
  durable : list Z;
  working : list Z;
  cur_rows : list (list PyVal);
  cur_description : option (list string);
  cur_rowcount : Z
}.

Definition with_cursor (s : State) (w : list Z) (rows : list (list PyVal))
    (d : option (list string)) (n : Z) : State :=
  {| openable := openable s; durable := durable s; working := w;
     cur_rows := rows; cur_description := d; cur_rowcount := n |}.

Definition toy_connect (s : State) : Outcome unit * State :=
  if openable s then (Ok tt, with_cursor s (durable s) [] None (-1))
  else (Raise (SqliteError "unable to open database file"), s).

Definition toy_execute (sql : string) (s : State) : Outcome unit * State :=
  if String.eqb sql "SELECT 1" then
    (Ok tt, with_cursor s (working s) [[PyInt 1]] (Some ["1"]) (-1))
  else if String.eqb sql "SELECT x FROM t" then
    (Ok tt, with_cursor s (working s) (map (fun x => [PyInt x]) (working s))
              (Some ["x"]) (-1))
  else if String.eqb sql "SELECT count(*) FROM t" then
    (Ok tt, with_cursor s (working s)
              [[PyInt (Z.of_nat (List.length (working s)))]]
              (Some ["count(*)"]) (-1))
  else if String.eqb sql "INSERT INTO t(x) VALUES (1)" then
    (Ok tt, with_cursor s (working s ++ [1]) [] None 1)
  else if String.eqb sql "SELECT name FROM sqlite_master WHERE type='table'" then
    (Ok tt, with_cursor s (working s) [[PyStr "t"]] (Some ["name"]) (-1))
  else if String.eqb sql "PRAGMA table_info(t)" then
    (Ok tt, with_cursor s (working s)
              [ [PyInt 0; PyStr "id"; PyStr "INTEGER"; PyInt 0; PyNone; PyInt 1];
                [PyInt 1; PyStr "x"; PyStr "INTEGER"; PyInt 1; PyStr "0"; PyInt 0] ]
              (Some ["cid"; "name"; "type"; "notnull"; "dflt_value"; "pk"]) (-1))
  else if String.prefix "PRAGMA table_info(" sql then
    (Ok tt, with_cursor s (working s) []
              (Some ["cid"; "name"; "type"; "notnull"; "dflt_value"; "pk"]) (-1))
  else (Raise (SqliteError "syntax error"), s).

Definition toy_fetchall (s : State) : Outcome (list (list PyVal)) * State :=
  (Ok (cur_rows s),
   with_cursor s (working s) [] (cur_description s) (cur_rowcount s)).

Definition toy_commit (s : State) : Outcome unit * State :=
  (Ok tt,
   {| openable := openable s; durable := working s; working := working s;
      cur_rows := cur_rows s; cur_description := cur_description s;
      cur_rowcount := cur_rowcount s |}).

Definition toy_close (s : State) : State :=
  with_cursor s (durable s) [] None (-1).

Definition type_name (v : PyVal) : string :=
  match v with
  | PyNone => "NoneType"
  | PyBool _ => "bool"
  | PyInt _ => "int"
  | PyStr _ => "str"
  | PyObj _ _ => "object"
  end.

#[export] Instance toy : Engine := {|
  St := State;
  connect := toy_connect;
  execute := toy_execute;
  fetchall := toy_fetchall;
  description := cur_description;
  rowcount := cur_rowcount;
  commit := toy_commit;
  close := toy_close;
  msg_execute_arg := fun v => "execute() argument 1 must be str, not " +:+ type_name v;
  msg_index := "tuple index out of range";
  msg_unpack := fun n =>
    if (n <? 6)%nat
    then "not enough values to unpack (expected 6, got " +:+ pretty n +:+ ")"
    else "too many values to unpack (expected 6)";
  msg_not_iterable := "'NoneType' object is not iterable"
|}.

(** A database file holding the rows [xs], no call made yet. *)
Definition db (xs : list Z) : State :=
  {| openable := true; durable := xs; working := xs;
     cur_rows := []; cur_description := None; cur_rowcount := -1 |}.

Definition world (xs : list Z) : World :=
  {| file_exists := true; engine := db xs; trace := [] |}.

(** No file at [DB_PATH]. *)
Definition no_file : World :=
  {| file_exists := false; engine := db []; trace := [] |}.

(** Something at [DB_PATH] that the engine cannot open. *)
Definition unopenable : World :=
  {| file_exists := true;
     engine := {| openable := false; durable := []; working := [];
                  cur_rows := []; cur_description := None; cur_rowcount := -1 |};
     trace := [] |}.

End Toy.

(** The two columns of the table [t]. *)
Definition t_columns : list Column :=
  [ {| cid := PyInt 0; col_name := PyStr "id"; col_type := PyStr "INTEGER";
       notnull := PyInt 0; dflt_value := PyNone; pk := PyInt 1 |};
    {| cid := PyInt 1; col_name := PyStr "x"; col_type := PyStr "INTEGER";
       notnull := PyInt 1; dflt_value := PyStr "0"; pk := PyInt 0 |} ].

(** [run_query] with a statement the small engine rejects. *)
Definition rejected_run : Outcome (list TextContent) * World :=
  call_tool "run_query" (query_args "DROP") (Toy.world []).

(** [run_query] with the insertion. *)
Definition insert_run : Outcome (list TextContent) * World :=
  call_tool "run_query" (query_args "INSERT INTO t(x) VALUES (1)") (Toy.world []).

(** * Properties *)

Example is_read_query_select : is_read_query "  SeLeCt 1" = true.
Proof. reflexivity. Qed.

Example is_read_query_pragma : is_read_query "PRAGMA table_info(t)" = true.
Proof. reflexivity. Qed.

Example is_read_query_insert : is_read_query "INSERT INTO t(x) VALUES (1)" = false.
Proof. reflexivity. Qed.

Example is_read_query_with : is_read_query "WITH a AS (SELECT 1) SELECT * FROM a" = false.
Proof. reflexivity. Qed.

Example py_str_int : py_str (PyInt (-12)) = "-12".
Proof. reflexivity. Qed.

(** ** Strings: append, lines *)

#[local] Arguments String.append : simpl nomatch.

Lemma append_assoc (a b c : string) : (a +:+ b) +:+ c = a +:+ (b +:+ c).
Proof. induction a as [|x a IH]; simpl; [reflexivity | f_equal; exact IH]. Qed.

Lemma append_nil_r (a : string) : a +:+ "" = a.
Proof. induction a as [|x a IH]; simpl; [reflexivity | f_equal; exact IH]. Qed.

Lemma append_nonempty_l (a b : string) : a ≠ "" -> a +:+ b ≠ "".
Proof. destruct a; simpl; [congruence | discriminate]. Qed.

Lemma str_mul_length (c : ascii) (n : nat) :
  String.length (str_mul (String c "") n) = n.
Proof. induction n as [|n IH]; simpl; [reflexivity | by rewrite IH]. Qed.

Lemma lines_line (a rest : string) :
  one_line a = true -> lines (a +:+ nl +:+ rest) = a :: lines rest.
Proof.
  induction a as [|c a IH]; simpl in *; intros Ha; [reflexivity|].
  apply andb_true_iff in Ha as [Hc Ha].
  apply negb_true_iff in Hc. rewrite Hc, (IH Ha). reflexivity.
Qed.

Lemma lines_last (a : string) :
  one_line a = true -> a ≠ "" -> lines a = [a].
Proof.
  induction a as [|c a IH]; simpl; intros Ha Hne; [congruence|].
  apply andb_true_iff in Ha as [Hc Ha].
  apply negb_true_iff in Hc. rewrite Hc.
  destruct a as [|d a]; [reflexivity|].
  rewrite (IH Ha); [reflexivity | discriminate].
Qed.

Lemma one_line_append (a b : string) :
  one_line (a +:+ b) = one_line a && one_line b.
Proof.
  induction a as [|c a IH]; simpl; [reflexivity|].
  rewrite <- andb_assoc. f_equal. exact IH.
Qed.

(** The lines of a joined list are the list, when every element is a
    line of its own. *)
Lemma lines_join (ls : list string) :
  Forall (fun l => one_line l = true /\ l ≠ "") ls ->
  lines (join nl ls) = ls.
Proof.
  induction 1 as [|l ls [Hl Hne] Hls IH]; [reflexivity|].
  destruct ls as [|l' ls].
  - simpl. by apply lines_last.
  - change (join nl (l :: l' :: ls)) with (l +:+ nl +:+ join nl (l' :: ls)).
    rewrite (lines_line _ _ Hl), IH. reflexivity.
Qed.

(** The lines of a text made of lines that each end in a line feed. *)
Lemma lines_terminated (ls : list string) :
  Forall (fun l => one_line l = true) ls ->
  lines (fold_right (fun l acc => l +:+ nl +:+ acc) "" ls) = ls.
Proof.
  induction 1 as [|l ls Hl Hls IH]; [reflexivity|].
  cbn [fold_right]. rewrite (lines_line _ _ Hl), IH. reflexivity.
Qed.

Lemma open_connections_app (a b : list Event) :
  open_connections (a ++ b) = open_connections a + open_connections b.
Proof.
  induction a as [|e a IH]; simpl; [reflexivity|].
  destruct e; rewrite ?IH; lia.
Qed.

(** ** The dispatcher, step by step *)

Section Steps.
Context `{Engine}.
Implicit Types (w : World) (arguments : gmap string PyVal) (name : string).

Lemma call_tool_no_file name arguments w :
  file_exists w = false ->
  call_tool name arguments w
  = (Ok (text_reply ("Error: Database file not found at " +:+ DB_PATH)), w).
Proof.
  intros Hf. unfold call_tool, mbind, Py_bind, os_path_exists.
  rewrite Hf. reflexivity.
Qed.

Lemma call_tool_connect_raises name arguments w e s :
  file_exists w = true ->
  connect (engine w) = (Raise e, s) ->
  call_tool name arguments w = handlers e (connected w s).
Proof.
  intros Hf Hc.
  unfold call_tool, mbind, Py_bind, os_path_exists, try_except,
    sqlite3_connect, engine_call.
  rewrite Hf; cbn [negb]; rewrite Hc. reflexivity.
Qed.

Lemma call_tool_connected name arguments w s :
  file_exists w = true ->
  connect (engine w) = (Ok tt, s) ->
  call_tool name arguments w
  = try_except (c ← block name arguments; finish c) handlers (connected w s).
Proof.
  intros Hf Hc.
  unfold call_tool, mbind, Py_bind, os_path_exists, try_except,
    sqlite3_connect, engine_call.
  rewrite Hf; cbn [negb]; rewrite Hc. reflexivity.
Qed.

Lemma bind_ok {A B : Type} (m : Py A) (k : A -> Py B) w a w' :
  m w = (Ok a, w') -> (x ← m; k x) w = k a w'.
Proof. intros Hm. unfold mbind, Py_bind. by rewrite Hm. Qed.

Lemma bind_raise {A B : Type} (m : Py A) (k : A -> Py B) w e w' :
  m w = (Raise e, w') -> (x ← m; k x) w = (Raise e, w').
Proof. intros Hm. unfold mbind, Py_bind. by rewrite Hm. Qed.

Lemma engine_call_ok {A : Type} ev (op : St -> Outcome A * St) w a s :
  op (engine w) = (Ok a, s) -> engine_call ev op w = (Ok a, after ev w s).
Proof. intros Ho. unfold engine_call. by rewrite Ho. Qed.

(** A block that ends normally gives its reply, through [conn.close()]
    or through its own [return]. *)
Lemma call_tool_block name arguments w s c w' :
  file_exists w = true ->
  connect (engine w) = (Ok tt, s) ->
  block name arguments (connected w s) = (Ok c, w') ->
  call_tool name arguments w = finish c w'.
Proof.
  intros Hf Hc Hb. rewrite (call_tool_connected _ _ _ _ Hf Hc).
  unfold try_except. rewrite (bind_ok _ _ _ _ _ Hb).
  destruct c; reflexivity.
Qed.

(** [table[0] for table in tables] on rows that each have a first cell. *)
Lemma comprehension_first_cell (rows : list (list PyVal)) (names : list PyVal) w :
  Forall2 (fun row n => head row = Some n) rows names ->
  comprehension first_cell rows w = (Ok names, w).
Proof.
  induction 1 as [|row n rows names Hrow _ IH]; [reflexivity|].
  cbn [comprehension]. destruct row as [|v row]; [discriminate|].
  injection Hrow as ->.
  unfold mbind, Py_bind at 1. cbn [first_cell]. unfold mret at 1, Py_ret at 1.
  unfold mbind, Py_bind. rewrite IH. reflexivity.
Qed.

End Steps.

(** ** The database file, the tool's name, the required argument *)

Lemma missing_or_empty_falsy arguments key :
  missing_or_empty arguments key ->
  py_truthy (default PyNone (arguments !! key)) = false.
Proof. intros [-> | ->]; reflexivity. Qed.

Section Validation.
Context `{Engine}.
Implicit Types (w : World) (arguments : gmap string PyVal) (name : string).

(** Line 81: a [table_name] that is not truthy ends the call at line 82,
    on the connection opened at line 70. *)
Lemma describe_table_falsy arguments w s :
  file_exists w = true ->
  connect (engine w) = (Ok tt, s) ->
  py_truthy (default PyNone (arguments !! "table_name")) = false ->
  call_tool "describe_table" arguments w
  = (Ok (text_reply "Error: table_name is required"), connected w s).
Proof.
  intros Hf Hc Ht.
  apply (call_tool_block _ _ _ _ (Returns (text_reply "Error: table_name is required"))
           _ Hf Hc).
  unfold block. cbn [String.eqb Ascii.eqb Bool.eqb andb].
  unfold describe_table_block. rewrite Ht. reflexivity.
Qed.

(** Line 103, likewise for [query]. *)
Lemma run_query_falsy arguments w s :
  file_exists w = true ->
  connect (engine w) = (Ok tt, s) ->
  py_truthy (default PyNone (arguments !! "query")) = false ->
  call_tool "run_query" arguments w
  = (Ok (text_reply "Error: query is required"), connected w s).
Proof.
  intros Hf Hc Ht.
  apply (call_tool_block _ _ _ _ (Returns (text_reply "Error: query is required"))
           _ Hf Hc).
  unfold block. cbn [String.eqb Ascii.eqb Bool.eqb andb].
  unfold run_query_block. rewrite Ht. reflexivity.
Qed.

(** C6. When there is no file at [DB_PATH], every call, whatever its
    name and arguments, replies "Error: Database file not found at
    <path>" and leaves the world as it was: no call is made on the
    engine, so no connection is opened and the database is untouched. *)
Theorem missing_database_file name arguments w :
  file_exists w = false ->
  call_tool name arguments w
  = (Ok (text_reply ("Error: Database file not found at " +:+ DB_PATH)), w).
Proof. apply call_tool_no_file. Qed.

(** C8. With the database file in place and the connection opened, a
    call whose name is none of the three tools returns normally with the
    one reply "Unknown tool: <name>"; the connection is closed. *)
Theorem unknown_tool_reply name arguments w s :
  file_exists w = true ->
  connect (engine w) = (Ok tt, s) ->
  name ∉ ["list_tables"; "describe_table"; "run_query"] ->
  call_tool name arguments w
  = (Ok (text_reply ("Unknown tool: " +:+ name)),
     after EClose (connected w s) (close s)).
Proof.
  intros Hf Hc Hn.
  rewrite (call_tool_block _ _ _ _ (Falls ("Unknown tool: " +:+ name))
             (connected w s) Hf Hc).
  - reflexivity.
  - unfold block.
    destruct (String.eqb_spec name "list_tables") as [->|_];
      [exfalso; apply Hn; set_solver|].
    destruct (String.eqb_spec name "describe_table") as [->|_];
      [exfalso; apply Hn; set_solver|].
    destruct (String.eqb_spec name "run_query") as [->|_];
      [exfalso; apply Hn; set_solver|].
    reflexivity.
Qed.

(** C7, as amended. With the database file in place and the connection
    opened, [describe_table] without a [table_name], or with the empty
    one, replies exactly "Error: table_name is required". The connection
    is opened before the argument is looked at, and no statement is run
    on it. *)
Theorem describe_table_requires_table_name arguments w s :
  file_exists w = true ->
  connect (engine w) = (Ok tt, s) ->
  missing_or_empty arguments "table_name" ->
  exists w',
    call_tool "describe_table" arguments w
    = (Ok (text_reply "Error: table_name is required"), w')
    /\ exists tr, trace w' = trace w ++ EConnect :: tr
                  /\ forall sql, EExecute sql ∉ tr.
Proof.
  intros Hf Hc Hm. exists (connected w s). split.
  - apply describe_table_falsy; auto using missing_or_empty_falsy.
  - exists []. split; [reflexivity | intros sql Hin; inversion Hin].
Qed.

(** C10. With the database file in place and the connection opened,
    [describe_table] whose [table_name] is missing or empty and
    [run_query] whose [query] is missing or empty reply "Error: <param> is
    required" from a world in which the one call made is [connect]: the
    connection was opened before the check and is still open when the
    call returns. *)
Theorem argument_check_leaves_connection_open arguments w s :
  file_exists w = true ->
  connect (engine w) = (Ok tt, s) ->
  (missing_or_empty arguments "table_name" ->
   call_tool "describe_table" arguments w
   = (Ok (text_reply "Error: table_name is required"), connected w s))
  /\ (missing_or_empty arguments "query" ->
      call_tool "run_query" arguments w
      = (Ok (text_reply "Error: query is required"), connected w s))
  /\ trace (connected w s) = trace w ++ [EConnect]
  /\ open_connections (trace (connected w s)) = open_connections (trace w) + 1.
Proof.
  intros Hf Hc. repeat split.
  - intros Hm. apply describe_table_falsy; auto using missing_or_empty_falsy.
  - intros Hm. apply run_query_falsy; auto using missing_or_empty_falsy.
  - cbn [connected after trace]. rewrite open_connections_app. simpl. lia.
Qed.

End Validation.

(** ** One segment per call *)

Section Replies.
Context `{Engine}.
Implicit Types (w : World) (arguments : gmap string PyVal) (name : string).

Lemma single_text_literal (c : ascii) (s : string) :
  single_text (text_reply (String c s)).
Proof. by exists (String c s). Qed.

Lemma handlers_single_text e w :
  exists reply, handlers e w = (Ok reply, w) /\ single_text reply.
Proof.
  destruct e as [msg|msg]; eexists; (split; [reflexivity|]);
    apply single_text_literal.
Qed.

Lemma describe_loop_nonempty columns : forall result w result' w',
  describe_loop columns result w = (Ok result', w') ->
  result ≠ "" -> result' ≠ "".
Proof.
  induction columns as [|col rest IH]; intros result w result' w' Hrun Hne.
  - injection Hrun as <- _. exact Hne.
  - cbn [describe_loop] in Hrun.
    destruct col as [|cid [|cname [|type_ [|notnull [|dflt [|pk [|x col]]]]]]];
      try discriminate Hrun.
    apply IH in Hrun; [exact Hrun|].
    cbv zeta. repeat case_match; repeat apply append_nonempty_l; exact Hne.
Qed.

Lemma rows_loop_nonempty rows : forall result,
  result ≠ "" -> rows_loop rows result ≠ "".
Proof.
  induction rows as [|row rest IH]; intros result Hne; [exact Hne|].
  cbn [rows_loop]. apply IH. by apply append_nonempty_l.
Qed.

Lemma list_tables_block_well w c w' :
  list_tables_block w = (Ok c, w') -> completes_well c.
Proof.
  unfold list_tables_block. intros Hrun.
  unfold mbind at 1 2 3, Py_bind at 1 2 3 in Hrun.
  repeat (case_match; simplify_eq; try discriminate).
  injection Hrun as <- _. discriminate.
Qed.

Lemma describe_table_block_well arguments w c w' :
  describe_table_block arguments w = (Ok c, w') -> completes_well c.
Proof.
  unfold describe_table_block. intros Hrun.
  destruct (py_truthy _); cbn [negb] in Hrun.
  - unfold mbind at 1 2, Py_bind at 1 2 in Hrun.
    destruct (cursor_execute _ w) as [[[]|e] w1]; [|discriminate].
    destruct (cursor_fetchall w1) as [[columns|e] w2]; [|discriminate].
    destruct columns as [|col columns].
    + injection Hrun as <- _. discriminate.
    + unfold mbind, Py_bind in Hrun.
      destruct (describe_loop _ _ w2) as [[result|e] w3] eqn:Hloop;
        [|discriminate].
      injection Hrun as <- _. cbn [completes_well].
      eapply describe_loop_nonempty; [exact Hloop | discriminate].
  - injection Hrun as <- _. apply single_text_literal.
Qed.

Lemma run_query_block_well arguments w c w' :
  run_query_block arguments w = (Ok c, w') -> completes_well c.
Proof.
  unfold run_query_block. intros Hrun.
  destruct (py_truthy _); cbn [negb] in Hrun.
  - destruct (default PyNone (arguments !! "query")) as [|b|z|q|r t];
      try discriminate Hrun.
    unfold mbind at 1, Py_bind at 1 in Hrun.
    destruct (cursor_execute q w) as [[[]|e] w1]; [|discriminate].
    destruct (is_read_query q).
    + unfold mbind at 1, Py_bind at 1 in Hrun.
      destruct (cursor_fetchall w1) as [[rows|e] w2]; [|discriminate].
      destruct rows as [|row rows].
      * injection Hrun as <- _. discriminate.
      * unfold mbind, Py_bind, cursor_description in Hrun.
        destruct (description (engine w2)) as [columns|]; [|discriminate].
        injection Hrun as <- _. cbn [completes_well].
        apply rows_loop_nonempty. discriminate.
    + unfold mbind, Py_bind, cursor_rowcount in Hrun.
      destruct (conn_commit w1) as [[[]|e] w2]; [|discriminate].
      injection Hrun as <- _. discriminate.
  - injection Hrun as <- _. apply single_text_literal.
Qed.

Lemma block_well name arguments w c w' :
  block name arguments w = (Ok c, w') -> completes_well c.
Proof.
  unfold block. repeat case_match.
  - apply list_tables_block_well.
  - apply describe_table_block_well.
  - apply run_query_block_well.
  - intros Hrun. injection Hrun as <- _. discriminate.
Qed.

Lemma finish_single_text c w :
  completes_well c ->
  exists reply w', finish c w = (Ok reply, w') /\ single_text reply.
Proof.
  destruct c as [result|reply]; cbn [completes_well]; intros Hc.
  - exists (text_reply result), (after EClose w (close (engine w))).
    split; [reflexivity|]. by exists result.
  - by exists reply, w.
Qed.

(** C9. Every call, whatever its name, its arguments and the behaviour
    of the engine, returns (no exception leaves [call_tool]) a sequence
    of exactly one segment, of type "text", whose body is not empty. *)
Theorem one_nonempty_text_segment name arguments w :
  exists segment w',
    call_tool name arguments w = (Ok [segment], w')
    /\ type segment = "text"
    /\ text segment ≠ "".
Proof.
  assert (exists reply w', call_tool name arguments w = (Ok reply, w')
                           /\ single_text reply) as (reply & w' & Hcall & Hgood).
  { destruct (file_exists w) eqn:Hf.
    - destruct (connect (engine w)) as [[[]|e] s] eqn:Hc.
      + rewrite (call_tool_connected _ _ _ _ Hf Hc). unfold try_except.
        destruct (block name arguments (connected w s)) as [[c|e] w1] eqn:Hb.
        * rewrite (bind_ok _ _ _ _ _ Hb).
          destruct (finish_single_text c w1 (block_well _ _ _ _ _ Hb))
            as (reply & w2 & -> & Hgood).
          by exists reply, w2.
        * rewrite (bind_raise _ _ _ _ _ Hb).
          destruct (handlers_single_text e w1) as (reply & Hh & Hgood).
          by exists reply, w1.
      + rewrite (call_tool_connect_raises _ _ _ _ _ Hf Hc).
        destruct (handlers_single_text e (connected w s)) as (reply & Hh & Hgood).
        by exists reply, (connected w s).
    - rewrite (call_tool_no_file _ _ _ Hf). eexists _, w.
      split; [reflexivity | apply single_text_literal]. }
  destruct Hgood as (body & -> & Hne).
  exists {| type := "text"; text := body |}, w'. by repeat split.
Qed.

End Replies.

(** ** The catalogue: [list_tables] and [describe_table] *)

Lemma lines_unlines (ls : list string) :
  Forall (fun l => one_line l = true) ls -> lines (unlines ls) = ls.
Proof. apply lines_terminated. Qed.

Lemma trace4 (tr : list Event) (a b c d : Event) :
  (((tr ++ [a]) ++ [b]) ++ [c]) ++ [d] = tr ++ [a; b; c; d].
Proof. by rewrite <- !app_assoc. Qed.

Section Catalogue.
Context `{Engine}.
Implicit Types (w : World) (arguments : gmap string PyVal) (name : string).

(** The loop of lines 90-99 appends the columns' lines to [result]. *)
Lemma describe_loop_lines (columns : list Column) : forall result w,
  describe_loop (map column_row columns) result w
  = (Ok (result +:+ unlines (map column_line columns)), w).
Proof.
  induction columns as [|c columns IH]; intros result w.
  - cbn. by rewrite append_nil_r.
  - cbn [map column_row describe_loop]. cbv zeta. rewrite IH.
    do 2 f_equal. cbn [unlines fold_right]. fold (unlines (map column_line columns)).
    unfold column_line.
    destruct (py_truthy (pk c)), (py_truthy (notnull c)), (is_not_none (dflt_value c));
      rewrite ?append_assoc; cbn [String.append]; reflexivity.
Qed.

(** C4. When the engine answers the catalogue query with one row per
    table, [list_tables] replies a header line followed by one line
    "- <name>" per table, in the order in which the engine gave the rows;
    with no table the reply is the header line and nothing after it. The
    connection is closed. *)
Theorem list_tables_reply arguments w s1 s2 s3
    (rows : list (list PyVal)) (names : list PyVal) :
  file_exists w = true ->
  connect (engine w) = (Ok tt, s1) ->
  execute LIST_TABLES_SQL s1 = (Ok tt, s2) ->
  fetchall s2 = (Ok rows, s3) ->
  Forall2 (fun row n => head row = Some n) rows names ->
  exists body w',
    call_tool "list_tables" arguments w = (Ok (text_reply body), w')
    /\ body = "Tables in database:" +:+ nl
              +:+ join nl (map (fun n => "- " +:+ py_str n) names)
    /\ (names = [] -> body = "Tables in database:" +:+ nl)
    /\ (Forall (fun n => one_line (py_str n) = true) names ->
        lines body
        = "Tables in database:" :: map (fun n => "- " +:+ py_str n) names)
    /\ trace w' = trace w ++ [EConnect; EExecute LIST_TABLES_SQL; EFetchAll; EClose].
Proof.
  intros Hf Hc He Hr Hrows.
  set (items := map (fun n => "- " +:+ py_str n) names).
  set (body := "Tables in database:" +:+ nl +:+ join nl items).
  set (w3 := after EFetchAll (after (EExecute LIST_TABLES_SQL) (connected w s1) s2) s3).
  assert (block "list_tables" arguments (connected w s1) = (Ok (Falls body), w3)) as Hb.
  { unfold block. cbn [String.eqb Ascii.eqb Bool.eqb andb].
    unfold list_tables_block.
    rewrite (bind_ok _ _ _ tt (after (EExecute LIST_TABLES_SQL) (connected w s1) s2))
      by (apply engine_call_ok; exact He).
    rewrite (bind_ok _ _ _ rows w3) by (apply engine_call_ok; exact Hr).
    rewrite (bind_ok _ _ _ names w3) by (by apply comprehension_first_cell).
    reflexivity. }
  exists body, (after EClose w3 (close s3)). repeat split.
  - by rewrite (call_tool_block _ _ _ _ _ _ Hf Hc Hb).
  - intros Hn. subst body items. by rewrite Hn.
  - intros Hone. subst body.
    rewrite lines_line by reflexivity. f_equal.
    apply lines_join. subst items. rewrite Forall_map.
    eapply Forall_impl; [exact Hone|].
    intros n Hn. split; [exact Hn | discriminate].
  - cbn [after connected trace w3]. apply trace4.
Qed.

(** C3. [describe_table] with a usable [table_name] T, when the engine
    answers [PRAGMA table_info(T)] with the columns' rows: with no row
    the reply is exactly "Table 'T' not found"; otherwise it is a title
    line and then, in the order of the rows, one line per column,
    "- <name>: <type>" followed by " (PRIMARY KEY)" when the primary-key
    flag is set, " NOT NULL" when the not-null flag is set and
    " DEFAULT <value>" when the default is not null. The connection is
    closed. *)
Theorem describe_table_reply arguments w s1 s2 s3
    (t : PyVal) (columns : list Column) :
  file_exists w = true ->
  connect (engine w) = (Ok tt, s1) ->
  arguments !! "table_name" = Some t ->
  py_truthy t = true ->
  execute ("PRAGMA table_info(" +:+ py_str t +:+ ")") s1 = (Ok tt, s2) ->
  fetchall s2 = (Ok (map column_row columns), s3) ->
  exists body w',
    call_tool "describe_table" arguments w = (Ok (text_reply body), w')
    /\ (columns = [] -> body = "Table '" +:+ py_str t +:+ "' not found")
    /\ (columns ≠ [] ->
        body = unlines (("Schema for table '" +:+ py_str t +:+ "':")
                        :: map column_line columns))
    /\ (columns ≠ [] ->
        one_line (py_str t) = true ->
        Forall (fun c => one_line (column_line c) = true) columns ->
        lines body = ("Schema for table '" +:+ py_str t +:+ "':")
                     :: map column_line columns)
    /\ trace w' = trace w ++ [EConnect;
                              EExecute ("PRAGMA table_info(" +:+ py_str t +:+ ")");
                              EFetchAll; EClose].
Proof.
  intros Hf Hc Ha Ht He Hr.
  set (sql := "PRAGMA table_info(" +:+ py_str t +:+ ")") in *.
  set (title := "Schema for table '" +:+ py_str t +:+ "':").
  set (w3 := after EFetchAll (after (EExecute sql) (connected w s1) s2) s3).
  set (body := match columns with
               | [] => "Table '" +:+ py_str t +:+ "' not found"
               | _ => unlines (title :: map column_line columns)
               end).
  assert (block "describe_table" arguments (connected w s1) = (Ok (Falls body), w3))
    as Hb.
  { unfold block. cbn [String.eqb Ascii.eqb Bool.eqb andb].
    unfold describe_table_block. rewrite Ha. cbv [from_option id]. rewrite Ht.
    cbn [negb].
    fold sql.
    rewrite (bind_ok _ _ _ tt (after (EExecute sql) (connected w s1) s2))
      by (apply engine_call_ok; exact He).
    rewrite (bind_ok _ _ _ (map column_row columns) w3)
      by (apply engine_call_ok; exact Hr).
    destruct columns as [|c columns]; [reflexivity|].
    cbn [map]. change (column_row c :: map column_row columns)
      with (map column_row (c :: columns)).
    rewrite (bind_ok _ _ _ _ _ (describe_loop_lines (c :: columns) _ w3)).
    subst body title. cbn [unlines fold_right].
    unfold mret, Py_ret. do 3 f_equal.
    rewrite !append_assoc. reflexivity. }
  exists body, (after EClose w3 (close s3)). repeat split.
  - by rewrite (call_tool_block _ _ _ _ _ _ Hf Hc Hb).
  - intros ->. reflexivity.
  - intros Hne. destruct columns; [congruence | reflexivity].
  - intros Hne Hone Hcols. destruct columns as [|c columns]; [congruence|].
    subst body. apply lines_unlines. constructor.
    + subst title. rewrite !one_line_append, Hone. reflexivity.
    + by rewrite Forall_map.
  - cbn [after connected trace w3]. apply trace4.
Qed.

End Catalogue.

(** ** Queries: [run_query] *)

Lemma is_read_query_nonempty (q : string) :
  is_read_query q = true -> py_truthy (PyStr q) = true.
Proof. destruct q; [discriminate | reflexivity]. Qed.

Section Queries.
Context `{Engine}.
Implicit Types (w : World) (arguments : gmap string PyVal) (name : string).

(** The loop of lines 115-116 appends the rows' lines to [result]. *)
Lemma rows_loop_lines (rows : list (list PyVal)) : forall result,
  rows_loop rows result = result +:+ unlines (map row_line rows).
Proof.
  induction rows as [|row rows IH]; intros result.
  - cbn. by rewrite append_nil_r.
  - cbn [rows_loop map unlines fold_right]. rewrite IH.
    by rewrite !append_assoc.
Qed.

(** C1, as amended. [run_query] with a statement that, stripped and in
    lower case, begins with "select" or "pragma", when the engine runs
    it and fetches its rows: with no row the reply is exactly "Query
    executed successfully. No results returned."; otherwise it is the
    line "Query results:", the line of the column names joined by
    " | ", a line of as many dashes as that line has characters, and one
    line per row, in order, of the cells' [str()] joined by " | ". The
    connection is closed. *)
Theorem read_query_reply arguments w s1 s2 s3 (q : string)
    (rows : list (list PyVal)) :
  file_exists w = true ->
  connect (engine w) = (Ok tt, s1) ->
  arguments !! "query" = Some (PyStr q) ->
  is_read_query q = true ->
  execute q s1 = (Ok tt, s2) ->
  fetchall s2 = (Ok rows, s3) ->
  let w' := after EClose
              (after EFetchAll (after (EExecute q) (connected w s1) s2) s3)
              (close s3) in
  trace w' = trace w ++ [EConnect; EExecute q; EFetchAll; EClose]
  /\ (rows = [] ->
      call_tool "run_query" arguments w
      = (Ok (text_reply "Query executed successfully. No results returned."), w'))
  /\ (rows ≠ [] ->
      forall columns, description s3 = Some columns ->
        call_tool "run_query" arguments w
        = (Ok (text_reply (unlines ("Query results:" :: grid columns rows))), w')
        /\ String.length (str_mul "-" (String.length (join " | " columns)))
           = String.length (join " | " columns)).
Proof.
  intros Hf Hc Ha Hq He Hr w'.
  set (w3 := after EFetchAll (after (EExecute q) (connected w s1) s2) s3).
  assert (forall c,
    (match rows with
     | [] => mret (Falls "Query executed successfully. No results returned.")
     | _ => d ← cursor_description;
            match d with
            | None => raise (OtherError msg_not_iterable)
            | Some columns =>
                mret (Falls (rows_loop rows
                  (("Query results:" +:+ nl) +:+ (join " | " columns +:+ nl)
                   +:+ (str_mul "-" (String.length (join " | " columns)) +:+ nl))))
            end
     end) w3 = (Ok c, w3) ->
    block "run_query" arguments (connected w s1) = (Ok c, w3)) as Hb.
  { intros c Hrest. unfold block. cbn [String.eqb Ascii.eqb Bool.eqb andb].
    unfold run_query_block. rewrite Ha. cbv [from_option id].
    rewrite (is_read_query_nonempty _ Hq). cbn [negb].
    rewrite (bind_ok _ _ _ tt (after (EExecute q) (connected w s1) s2))
      by (apply engine_call_ok; exact He).
    rewrite Hq.
    rewrite (bind_ok _ _ _ rows w3) by (apply engine_call_ok; exact Hr).
    exact Hrest. }
  split; [cbn [after connected trace w']; apply trace4|]. split.
  - intros ->.
    by rewrite (call_tool_block _ _ _ _ _ _ Hf Hc (Hb _ eq_refl)).
  - intros Hne columns Hd. split; [|apply str_mul_length].
    rewrite (call_tool_block _ _ _ _
               (Falls (unlines ("Query results:" :: grid columns rows))) w3 Hf Hc);
      [reflexivity|].
    apply Hb. destruct rows as [|row rows]; [congruence|].
    unfold mbind, Py_bind, cursor_description.
    change (description (engine w3)) with (description s3). rewrite Hd.
    unfold mret, Py_ret. do 3 f_equal.
    rewrite rows_loop_lines. unfold grid. cbn [unlines fold_right].
    fold (unlines (map row_line (row :: rows))).
    by rewrite !append_assoc.
Qed.

(** C2. [run_query] with a non-empty statement that is not classified
    as a read, when the engine runs it and commits: the statement is
    executed, the transaction is committed, the connection is closed, in
    this order, and the reply is exactly "Query executed successfully. N
    rows affected." with N the row count the cursor reports. The engine
    is left as [close] leaves it after the commit, so a later call reads
    what was committed; when one row was affected the reply is "Query
    executed successfully. 1 rows affected.". *)
Theorem mutation_reply arguments w s1 s2 s3 (q : string) :
  file_exists w = true ->
  connect (engine w) = (Ok tt, s1) ->
  arguments !! "query" = Some (PyStr q) ->
  q ≠ "" ->
  is_read_query q = false ->
  execute q s1 = (Ok tt, s2) ->
  commit s2 = (Ok tt, s3) ->
  exists w',
    call_tool "run_query" arguments w
    = (Ok (text_reply ("Query executed successfully. " +:+ pretty (rowcount s3)
                       +:+ " rows affected.")), w')
    /\ trace w' = trace w ++ [EConnect; EExecute q; ECommit; EClose]
    /\ engine w' = close s3
    /\ (rowcount s3 = 1 ->
        call_tool "run_query" arguments w
        = (Ok (text_reply "Query executed successfully. 1 rows affected."), w')).
Proof.
  intros Hf Hc Ha Hne Hq He Hm.
  set (body := "Query executed successfully. " +:+ pretty (rowcount s3)
               +:+ " rows affected.").
  set (w3 := after ECommit (after (EExecute q) (connected w s1) s2) s3).
  assert (block "run_query" arguments (connected w s1) = (Ok (Falls body), w3)) as Hb.
  { unfold block. cbn [String.eqb Ascii.eqb Bool.eqb andb].
    unfold run_query_block. rewrite Ha. cbv [from_option id]. cbn [py_truthy].
    apply String.eqb_neq in Hne. rewrite Hne. cbn [negb].
    rewrite (bind_ok _ _ _ tt (after (EExecute q) (connected w s1) s2))
      by (apply engine_call_ok; exact He).
    rewrite Hq.
    rewrite (bind_ok _ _ _ tt w3) by (apply engine_call_ok; exact Hm).
    reflexivity. }
  assert (call_tool "run_query" arguments w
          = (Ok (text_reply body), after EClose w3 (close s3))) as Hcall
    by (by rewrite (call_tool_block _ _ _ _ _ _ Hf Hc Hb)).
  exists (after EClose w3 (close s3)). repeat split.
  - exact Hcall.
  - cbn [after connected trace w3]. apply trace4.
  - intros Hone. rewrite Hcall. subst body. rewrite Hone. reflexivity.
Qed.

End Queries.

(** ** The dispatcher on the small engine *)

Lemma query_args_lookup (q : string) : query_args q !! "query" = Some (PyStr q).
Proof. apply lookup_singleton_eq. Qed.

Lemma table_args_lookup (t : string) :
  table_args t !! "table_name" = Some (PyStr t).
Proof. apply lookup_singleton_eq. Qed.

(** C1, the reply to a read that fetches no row. On an empty table
    [SELECT x FROM t] is classified as a read and fetches nothing; the
    reply is not the text "no results returned", which does not even occur
    in it. *)
Lemma read_without_rows_text :
  is_read_query "SELECT x FROM t" = true
  /\ exists body w',
       call_tool "run_query" (query_args "SELECT x FROM t") (Toy.world [])
       = (Ok (text_reply body), w')
       /\ body = "Query executed successfully. No results returned."
       /\ body ≠ "no results returned"
       /\ occurs "no results returned" body = false.
Proof.
  split; [reflexivity|].
  eexists _, _. split; [vm_compute; reflexivity|].
  split; [reflexivity|]. split; [discriminate | reflexivity].
Qed.

Lemma read_query_reply_witness :
  is_read_query "SELECT 1" = true
  /\ exists w',
       call_tool "run_query" (query_args "SELECT 1") (Toy.world [])
       = (Ok (text_reply (unlines ["Query results:"; "1"; "-"; "1"])), w')
       /\ trace w' = [EConnect; EExecute "SELECT 1"; EFetchAll; EClose].
Proof.
  split; [reflexivity|].
  destruct (@read_query_reply Toy.toy (query_args "SELECT 1")
              (Toy.world []) _ _ _ "SELECT 1" [[PyInt 1]]
              eq_refl eq_refl (query_args_lookup _) eq_refl eq_refl eq_refl)
    as (Htrace & _ & Hgrid).
  destruct (Hgrid ltac:(discriminate) ["1"] eq_refl) as [Hcall _].
  eexists. split; [exact Hcall | exact Htrace].
Defined.

Lemma mutation_reply_witness :
  is_read_query "INSERT INTO t(x) VALUES (1)" = false
  /\ exists w',
       call_tool "run_query" (query_args "INSERT INTO t(x) VALUES (1)")
         (Toy.world [])
       = (Ok (text_reply "Query executed successfully. 1 rows affected."), w')
       /\ trace w' = [EConnect; EExecute "INSERT INTO t(x) VALUES (1)"; ECommit; EClose]
       /\ Toy.durable (engine w') = [1]
       /\ fst (call_tool "run_query" (query_args "SELECT count(*) FROM t") w')
          = Ok (text_reply (unlines ["Query results:"; "count(*)"; "--------"; "1"])).
Proof.
  split; [reflexivity|].
  destruct (@mutation_reply Toy.toy
              (query_args "INSERT INTO t(x) VALUES (1)")
              (Toy.world []) _ _ _ "INSERT INTO t(x) VALUES (1)"
              eq_refl eq_refl (query_args_lookup _) ltac:(discriminate)
              eq_refl eq_refl eq_refl)
    as (w' & Hcall & Htrace & Hengine & Hone).
  exists w'. split; [exact (Hone eq_refl)|]. split; [exact Htrace|].
  assert (w' = snd (call_tool "run_query"
                      (query_args "INSERT INTO t(x) VALUES (1)")
                      (Toy.world []))) as -> by (by rewrite Hcall).
  split; vm_compute; reflexivity.
Defined.

Lemma list_tables_reply_witness :
  exists body w',
    call_tool "list_tables" ∅ (Toy.world []) = (Ok (text_reply body), w')
    /\ lines body = ["Tables in database:"; "- t"]
    /\ trace w' = [EConnect; EExecute LIST_TABLES_SQL; EFetchAll; EClose].
Proof.
  destruct (@list_tables_reply Toy.toy ∅ (Toy.world []) _ _ _
              [[PyStr "t"]] [PyStr "t"]
              eq_refl eq_refl eq_refl eq_refl
              ltac:(repeat constructor))
    as (body & w' & Hcall & _ & _ & Hlines & Htrace).
  exists body, w'. split; [exact Hcall|].
  split; [apply Hlines; repeat constructor | exact Htrace].
Defined.

Lemma describe_table_reply_witness :
  exists body w',
    call_tool "describe_table" (table_args "t") (Toy.world [])
    = (Ok (text_reply body), w')
    /\ lines body = [ "Schema for table 't':";
                      "- id: INTEGER (PRIMARY KEY)";
                      "- x: INTEGER NOT NULL DEFAULT 0" ].
Proof.
  destruct (@describe_table_reply Toy.toy (table_args "t")
              (Toy.world []) _ _ _ (PyStr "t") t_columns
              eq_refl eq_refl (table_args_lookup _) eq_refl eq_refl eq_refl)
    as (body & w' & Hcall & _ & _ & Hlines & _).
  exists body, w'. split; [exact Hcall|].
  apply Hlines; [discriminate | reflexivity | repeat constructor].
Defined.

Lemma missing_database_file_witness :
  file_exists Toy.no_file = false
  /\ call_tool "run_query" (query_args "SELECT 1") Toy.no_file
     = (Ok (text_reply ("Error: Database file not found at " +:+ DB_PATH)),
        Toy.no_file).
Proof.
  split; [reflexivity|].
  apply (@missing_database_file Toy.toy). reflexivity.
Defined.

Lemma unknown_tool_reply_witness :
  exists w',
    call_tool "drop_table" ∅ (Toy.world [])
    = (Ok (text_reply "Unknown tool: drop_table"), w')
    /\ trace w' = [EConnect; EClose].
Proof.
  eexists. split.
  - apply (@unknown_tool_reply Toy.toy "drop_table" ∅ (Toy.world []) _
             eq_refl eq_refl).
    intros Hin. repeat (apply elem_of_cons in Hin as [Hin|Hin]; [discriminate|]).
    inversion Hin.
  - reflexivity.
Defined.

(** What is at [DB_PATH] exists and cannot be opened: [connect] raises and
    the reply is the handler's, whatever the tool. *)
Example unknown_tool_unopenable :
  call_tool "drop_table" ∅ Toy.unopenable
  = (Ok (text_reply "SQLite error: unable to open database file"),
     connected Toy.unopenable (engine Toy.unopenable)).
Proof. reflexivity. Qed.

(** C7, the connection. [describe_table] with the empty [table_name], on
    a world in which no call has been made on the engine: the reply is the
    one of the claim, and [connect] has been called. *)
Lemma describe_table_empty_name_connects :
  exists w',
    call_tool "describe_table" (table_args "") (Toy.world [])
    = (Ok (text_reply "Error: table_name is required"), w')
    /\ trace (Toy.world []) = []
    /\ EConnect ∈ trace w'.
Proof.
  eexists. split; [vm_compute; reflexivity|].
  split; [reflexivity | constructor].
Qed.

Lemma describe_table_requires_table_name_witness :
  exists w',
    call_tool "describe_table" ∅ (Toy.world [])
    = (Ok (text_reply "Error: table_name is required"), w')
    /\ exists tr, trace w' = trace (Toy.world []) ++ EConnect :: tr
                  /\ forall sql, EExecute sql ∉ tr.
Proof.
  apply (@describe_table_requires_table_name Toy.toy ∅ (Toy.world []) _
           eq_refl eq_refl).
  left. reflexivity.
Defined.

Lemma argument_check_leaves_connection_open_witness :
  call_tool "describe_table" (table_args "") (Toy.world [])
  = (Ok (text_reply "Error: table_name is required"),
     connected (Toy.world []) (Toy.db []))
  /\ call_tool "run_query" ∅ (Toy.world [])
     = (Ok (text_reply "Error: query is required"),
        connected (Toy.world []) (Toy.db []))
  /\ trace (connected (Toy.world []) (Toy.db [])) = [EConnect]
  /\ open_connections (trace (connected (Toy.world []) (Toy.db []))) = 1.
Proof.
  destruct (@argument_check_leaves_connection_open Toy.toy
              (table_args "") (Toy.world []) (Toy.db [])
              eq_refl eq_refl) as (Hd & _ & Htrace & Hopen).
  destruct (@argument_check_leaves_connection_open Toy.toy
              ∅ (Toy.world []) (Toy.db []) eq_refl eq_refl) as (_ & Hq & _ & _).
  split; [apply Hd; right; reflexivity|].
  split; [apply Hq; left; reflexivity|].
  split; [exact Htrace | exact Hopen].
Defined.

(** C5. The connection is closed where a block falls through to line
    126, and only there. [describe_table] without a [table_name] returns
    at line 82, and [run_query] with a statement the engine rejects leaves
    through the handler of line 130: in both the connection opened at
    line 70 is still open when [call_tool] returns. A call that succeeds
    closes it. *)
Theorem connection_left_open :
  let early := snd (call_tool "describe_table" ∅ (Toy.world [])) in
  let failed := snd (call_tool "run_query" (query_args "DROP") (Toy.world [])) in
  let done := snd (call_tool "list_tables" ∅ (Toy.world [])) in
  (trace early = [EConnect] /\ open_connections (trace early) = 1)
  /\ (fst (call_tool "run_query" (query_args "DROP") (Toy.world []))
      = Ok (text_reply "SQLite error: syntax error")
      /\ trace failed = [EConnect; EExecute "DROP"]
      /\ open_connections (trace failed) = 1)
  /\ open_connections (trace done) = 0.
Proof. vm_compute. repeat split. Qed.

(** ** The calls every run makes *)

Lemma prefix_append (p x : string) : String.prefix p (p +:+ x) = true.
Proof.
  induction p as [|c p IH]; simpl; [by destruct x|].
  destruct (ascii_dec c c); [exact IH | congruence].
Qed.

Lemma prefix_inv (c : ascii) (p body : string) :
  String.prefix (String c p) body = true ->
  exists body', body = String c body' /\ String.prefix p body' = true.
Proof.
  destruct body as [|d body]; simpl; [discriminate|].
  destruct (ascii_dec c d) as [<-|]; [|discriminate]. eauto.
Qed.

Lemma prefix_nil (s : string) : String.prefix "" s = true.
Proof. by destruct s. Qed.

Lemma prefix_cons (c : ascii) (p s : string) :
  String.prefix p s = true -> String.prefix (String c p) (String c s) = true.
Proof. intros Hp. simpl. destruct (ascii_dec c c); [exact Hp | congruence]. Qed.

Lemma prefix_refl (s : string) : String.prefix s s = true.
Proof. rewrite <- (append_nil_r s) at 2. apply prefix_append. Qed.

(** [s] begins with the first or the second of the given texts. *)
Ltac begins_with :=
  unfold startswith, success_prefixes, is_error_reply;
  cbn [String.eqb Ascii.eqb Bool.eqb andb existsb String.append nl];
  apply orb_true_iff;
  first [ left; solve [repeat apply prefix_cons;
                       first [apply prefix_nil | apply prefix_refl]]
        | right; apply orb_true_iff; left;
          solve [repeat apply prefix_cons;
                 first [apply prefix_nil | apply prefix_refl]] ].

(** [e] is none of the listed events. *)
Ltac not_listed :=
  let Hin := fresh "Hin" in
  intros Hin;
  repeat (apply elem_of_cons in Hin as [Hin|Hin]; [discriminate Hin|]);
  by apply elem_of_nil in Hin.

Ltac events_done :=
  repeat match goal with x := _ |- _ => subst x end;
  unfold block_outcome; repeat split;
  first [ reflexivity
        | cbn [after connected trace file_exists]; by rewrite <- ?app_assoc
        | not_listed
        | by eexists
        | begins_with ].

Section Footprint.
Context `{Engine}.
Implicit Types (w : World) (arguments : gmap string PyVal) (name : string).

Lemma engine_call_eq {A : Type} ev (op : St -> Outcome A * St) w r s :
  op (engine w) = (r, s) -> engine_call ev op w = (r, after ev w s).
Proof. intros Ho. unfold engine_call. by rewrite Ho. Qed.

(** [table[0] for table in tables] leaves the world as it is. *)
Lemma comprehension_first_cell_world (rows : list (list PyVal)) w r w' :
  comprehension first_cell rows w = (r, w') -> w' = w.
Proof.
  revert r w'. induction rows as [|row rows IH]; intros r w' Hrun.
  - by injection Hrun as _ <-.
  - cbn [comprehension] in Hrun. unfold mbind at 1, Py_bind at 1 in Hrun.
    destruct row as [|v row]; cbn [first_cell] in Hrun.
    + by injection Hrun as _ <-.
    + unfold mret at 1, Py_ret at 1 in Hrun. unfold mbind, Py_bind in Hrun.
      destruct (comprehension first_cell rows w) as [[names|e] w1] eqn:Hc;
        pose proof (IH _ _ eq_refl) as ->; by injection Hrun as _ <-.
Qed.

(** The loop of lines 90-99 only appends to [result] and makes no call. *)
Lemma describe_loop_appends columns : forall result w r w',
  describe_loop columns result w = (r, w') ->
  w' = w /\ forall result', r = Ok result' -> exists suffix, result' = result +:+ suffix.
Proof.
  induction columns as [|col rest IH]; intros result w r w' Hrun.
  - injection Hrun as <- <-. split; [reflexivity|].
    intros result' [= <-]. exists "". by rewrite append_nil_r.
  - cbn [describe_loop] in Hrun.
    destruct col as [|cid [|cname [|type_ [|notnull [|dflt [|pk [|x col]]]]]]];
      try (injection Hrun as <- <-; split; [reflexivity | discriminate]).
    apply IH in Hrun as [-> Hres]. split; [reflexivity|].
    intros result' Hr. destruct (Hres _ Hr) as [suffix ->].
    cbv zeta. repeat case_match; rewrite !append_assoc; eauto.
Qed.

Lemma list_tables_block_events arguments w r w' :
  list_tables_block w = (r, w') ->
  exists tr, file_exists w' = file_exists w /\ trace w' = trace w ++ tr
             /\ block_outcome "list_tables" arguments tr r.
Proof.
  unfold list_tables_block, cursor_execute, cursor_fetchall. intros Hrun.
  destruct (execute LIST_TABLES_SQL (engine w)) as [[[]|e] s1] eqn:He.
  - rewrite (bind_ok _ _ _ tt _ (engine_call_eq _ _ _ _ _ He)) in Hrun.
    destruct (fetchall s1) as [[rows|e] s2] eqn:Hf.
    + rewrite (bind_ok _ _ _ rows _
                 (engine_call_eq _ _ (after (EExecute LIST_TABLES_SQL) w s1) _ _ Hf))
        in Hrun.
      set (w2 := after EFetchAll (after (EExecute LIST_TABLES_SQL) w s1) s2) in *.
      destruct (comprehension first_cell rows w2) as [[names|e] w3] eqn:Hc;
        pose proof (comprehension_first_cell_world _ _ _ _ Hc) as ->.
      * rewrite (bind_ok _ _ _ _ _ Hc) in Hrun. injection Hrun as <- <-.
        exists [EExecute LIST_TABLES_SQL; EFetchAll]. events_done.
      * rewrite (bind_raise _ _ _ _ _ Hc) in Hrun. injection Hrun as <- <-.
        exists [EExecute LIST_TABLES_SQL; EFetchAll]. events_done.
    + rewrite (bind_raise _ _ _ _ _
                 (engine_call_eq _ _ (after (EExecute LIST_TABLES_SQL) w s1) _ _ Hf))
        in Hrun.
      injection Hrun as <- <-.
      exists [EExecute LIST_TABLES_SQL; EFetchAll]. events_done.
  - rewrite (bind_raise _ _ _ _ _ (engine_call_eq _ _ _ _ _ He)) in Hrun.
    injection Hrun as <- <-.
    exists [EExecute LIST_TABLES_SQL]. events_done.
Qed.

Lemma describe_table_block_events arguments w r w' :
  describe_table_block arguments w = (r, w') ->
  exists tr, file_exists w' = file_exists w /\ trace w' = trace w ++ tr
             /\ block_outcome "describe_table" arguments tr r.
Proof.
  unfold describe_table_block, cursor_execute, cursor_fetchall. intros Hrun.
  unfold block_outcome, plan. cbn [String.eqb Ascii.eqb Bool.eqb andb]. cbv zeta.
  set (t := default PyNone (arguments !! "table_name")) in *.
  destruct (py_truthy t); cbn [negb] in Hrun.
  - set (sql := "PRAGMA table_info(" +:+ py_str t +:+ ")") in *.
    destruct (execute sql (engine w)) as [[[]|e] s1] eqn:He.
    + rewrite (bind_ok _ _ _ tt _ (engine_call_eq _ _ _ _ _ He)) in Hrun.
      destruct (fetchall s1) as [[columns|e] s2] eqn:Hf.
      * rewrite (bind_ok _ _ _ columns _
                   (engine_call_eq _ _ (after (EExecute sql) w s1) _ _ Hf)) in Hrun.
        destruct columns as [|col columns].
        -- injection Hrun as <- <-. exists [EExecute sql; EFetchAll]. events_done.
        -- set (w2 := after EFetchAll (after (EExecute sql) w s1) s2) in *.
           destruct (describe_loop (col :: columns)
                       ("Schema for table '" +:+ py_str t +:+ "':" +:+ nl) w2)
             as [[result|e] w3] eqn:Hloop;
             destruct (describe_loop_appends _ _ _ _ _ Hloop) as [-> Hres].
           ++ rewrite (bind_ok _ _ _ _ _ Hloop) in Hrun. injection Hrun as <- <-.
              destruct (Hres _ eq_refl) as [suffix ->].
              exists [EExecute sql; EFetchAll]. rewrite append_assoc. events_done.
           ++ rewrite (bind_raise _ _ _ _ _ Hloop) in Hrun. injection Hrun as <- <-.
              exists [EExecute sql; EFetchAll]. events_done.
      * rewrite (bind_raise _ _ _ _ _
                   (engine_call_eq _ _ (after (EExecute sql) w s1) _ _ Hf)) in Hrun.
        injection Hrun as <- <-. exists [EExecute sql; EFetchAll]. events_done.
    + rewrite (bind_raise _ _ _ _ _ (engine_call_eq _ _ _ _ _ He)) in Hrun.
      injection Hrun as <- <-. exists [EExecute sql]. events_done.
  - injection Hrun as <- <-. exists []. rewrite app_nil_r.
    repeat split; [not_listed|]. eexists. split; [reflexivity | begins_with].
Qed.

Lemma run_query_block_events arguments w r w' :
  run_query_block arguments w = (r, w') ->
  exists tr, file_exists w' = file_exists w /\ trace w' = trace w ++ tr
             /\ block_outcome "run_query" arguments tr r.
Proof.
  unfold run_query_block, cursor_execute, cursor_fetchall, conn_commit.
  intros Hrun.
  unfold block_outcome, plan. cbn [String.eqb Ascii.eqb Bool.eqb andb]. cbv zeta.
  destruct (default PyNone (arguments !! "query")) as [|b|z|q|o t] eqn:Hq;
    (destruct (py_truthy _) eqn:Ht; cbn [negb] in Hrun;
     [| injection Hrun as <- <-; exists []; rewrite app_nil_r;
        repeat split; [not_listed|]; eexists;
        split; [reflexivity | begins_with]]);
    try (injection Hrun as <- <-; exists []; rewrite app_nil_r;
         repeat split; [not_listed | by exists []]).
  destruct (execute q (engine w)) as [[[]|e] s1] eqn:He.
  - rewrite (bind_ok _ _ _ tt _ (engine_call_eq _ _ _ _ _ He)) in Hrun.
    destruct (is_read_query q).
    + destruct (fetchall s1) as [[rows|e] s2] eqn:Hf.
      * rewrite (bind_ok _ _ _ rows _
                   (engine_call_eq _ _ (after (EExecute q) w s1) _ _ Hf)) in Hrun.
        destruct rows as [|row rows].
        -- injection Hrun as <- <-. exists [EExecute q; EFetchAll]. events_done.
        -- unfold mbind, Py_bind, cursor_description in Hrun.
           destruct (description _) as [columns|].
           ++ injection Hrun as <- <-. exists [EExecute q; EFetchAll].
              rewrite rows_loop_lines, !append_assoc. events_done.
           ++ injection Hrun as <- <-. exists [EExecute q; EFetchAll]. events_done.
      * rewrite (bind_raise _ _ _ _ _
                   (engine_call_eq _ _ (after (EExecute q) w s1) _ _ Hf)) in Hrun.
        injection Hrun as <- <-. exists [EExecute q; EFetchAll]. events_done.
    + destruct (commit s1) as [[[]|e] s2] eqn:Hm.
      * rewrite (bind_ok _ _ _ tt _
                   (engine_call_eq _ _ (after (EExecute q) w s1) _ _ Hm)) in Hrun.
        injection Hrun as <- <-. exists [EExecute q; ECommit]. events_done.
      * rewrite (bind_raise _ _ _ _ _
                   (engine_call_eq _ _ (after (EExecute q) w s1) _ _ Hm)) in Hrun.
        injection Hrun as <- <-. exists [EExecute q; ECommit]. events_done.
  - rewrite (bind_raise _ _ _ _ _ (engine_call_eq _ _ _ _ _ He)) in Hrun.
    injection Hrun as <- <-. exists [EExecute q]. events_done.
Qed.

(** Whatever the tool: the calls and the outcome of its block. *)
Lemma block_events name arguments w r w' :
  block name arguments w = (r, w') ->
  exists tr, file_exists w' = file_exists w /\ trace w' = trace w ++ tr
             /\ block_outcome name arguments tr r.
Proof.
  unfold block.
  destruct (String.eqb_spec name "list_tables") as [->|Hl];
    [apply list_tables_block_events|].
  destruct (String.eqb_spec name "describe_table") as [->|Hd];
    [apply describe_table_block_events|].
  destruct (String.eqb_spec name "run_query") as [->|Hr];
    [apply run_query_block_events|].
  intros Hrun. injection Hrun as <- <-. exists []. rewrite app_nil_r.
  unfold block_outcome, plan, success_prefixes.
  apply String.eqb_neq in Hl, Hd, Hr. rewrite Hl, Hd, Hr.
  repeat split; [not_listed|].
  unfold startswith. cbn [existsb]. by rewrite prefix_refl.
Qed.

Lemma plan_head name arguments :
  exists rest, plan name arguments = EConnect :: rest.
Proof. unfold plan. repeat case_match; eauto. Qed.

Lemma handlers_error_reply e w :
  exists body, handlers e w = (Ok (text_reply body), w) /\ is_error_reply body = true.
Proof.
  destruct e as [msg|msg]; eexists; (split; [reflexivity | begins_with]).
Qed.

(** Whatever the call: its reply, the calls it made and how they sit on
    the plan. *)
Lemma call_tool_events name arguments w r w' :
  call_tool name arguments w = (r, w') ->
  exists body tr,
    r = Ok (text_reply body)
    /\ file_exists w' = file_exists w
    /\ trace w' = trace w ++ tr
    /\ call_outcome (file_exists w) name arguments tr body.
Proof.
  intros Hcall. unfold call_outcome. destruct (file_exists w) eqn:Hf.
  - destruct (connect (engine w)) as [[[]|e] s] eqn:Hc.
    + rewrite (call_tool_connected _ _ _ _ Hf Hc) in Hcall.
      unfold try_except in Hcall.
      destruct (block name arguments (connected w s)) as [[c|e] w1] eqn:Hb;
        destruct (block_events _ _ _ _ _ Hb) as (tr & Hfile & Htrace & Hopen & Hclose & Hout).
      * rewrite (bind_ok _ _ _ _ _ Hb) in Hcall. destruct c as [result|reply].
        -- injection Hcall as <- <-. destruct Hout as [Hplan Hbody].
           exists result, (EConnect :: tr ++ [EClose]). repeat split.
           ++ by rewrite Hfile.
           ++ cbn [after trace]. rewrite Htrace. cbn [connected after trace].
              by rewrite <- !app_assoc.
           ++ left. repeat split; [by rewrite Hplan | | exact Hbody].
              cbn [open_connections]. rewrite open_connections_app, Hopen.
              reflexivity.
        -- injection Hcall as <- <-.
           destruct Hout as (-> & Hplan & body & -> & Hbody).
           exists body, [EConnect]. repeat split.
           ++ by rewrite Hfile.
           ++ rewrite Htrace. cbn [connected after trace]. by rewrite app_nil_r.
           ++ right. rewrite Hplan.
              refine (conj _ (conj _ (conj _ (conj _ Hbody))));
                [done | discriminate | not_listed | reflexivity].
      * rewrite (bind_raise _ _ _ _ _ Hb) in Hcall.
        destruct (handlers_error_reply e w1) as (body & Hh & Hbody).
        rewrite Hh in Hcall. injection Hcall as <- <-.
        destruct Hout as [rest Hplan].
        exists body, (EConnect :: tr). repeat split.
        -- by rewrite Hfile.
        -- rewrite Htrace. cbn [connected after trace]. by rewrite <- app_assoc.
        -- right. refine (conj _ (conj _ (conj _ (conj _ Hbody)))).
           ++ exists rest. by rewrite Hplan.
           ++ discriminate.
           ++ intros Hin. apply elem_of_cons in Hin as [Hin|Hin]; [discriminate | auto].
           ++ cbn [open_connections]. by rewrite Hopen.
    + rewrite (call_tool_connect_raises _ _ _ _ _ Hf Hc) in Hcall.
      destruct (handlers_error_reply e (connected w s)) as (body & Hh & Hbody).
      rewrite Hh in Hcall. injection Hcall as <- <-.
      exists body, [EConnect]. repeat split; [exact Hf|].
      right. destruct (plan_head name arguments) as [rest ->].
      refine (conj _ (conj _ (conj _ (conj _ Hbody))));
        [by exists rest | discriminate | not_listed | reflexivity].
  - rewrite (call_tool_no_file _ _ _ Hf) in Hcall. injection Hcall as <- <-.
    eexists _, []. rewrite app_nil_r. by repeat split.
Qed.

End Footprint.

(** ** What every call does, and what none does *)

Lemma success_not_error (name body : string) :
  startswith body (success_prefixes name) = true -> is_error_reply body = false.
Proof.
  unfold success_prefixes, startswith.
  repeat case_match; cbn [existsb String.append nl]; intros Hp;
    repeat (apply orb_true_iff in Hp as [Hp|Hp]); try discriminate Hp;
    apply prefix_inv in Hp as (body' & -> & Hp); try reflexivity;
    apply prefix_inv in Hp as (body'' & -> & Hp); reflexivity.
Qed.

Lemma prefix_of_elem {A : Type} (tr full : list A) (x : A) :
  tr `prefix_of` full -> x ∈ tr -> x ∈ full.
Proof. intros [k ->] Hx. apply elem_of_app. by left. Qed.

Lemma default_lookup_str (arguments : gmap string PyVal) (key q : string) :
  default PyNone (arguments !! key) = PyStr q -> arguments !! key = Some (PyStr q).
Proof. destruct (arguments !! key) as [v|]; cbn; [by intros -> | discriminate]. Qed.

(** The plans with a [commit] in them. *)
Lemma plan_commit name arguments :
  ECommit ∈ plan name arguments ->
  name = "run_query"
  /\ exists q, arguments !! "query" = Some (PyStr q) /\ q ≠ ""
               /\ is_read_query q = false
               /\ plan name arguments = [EConnect; EExecute q; ECommit; EClose].
Proof.
  unfold plan.
  destruct (String.eqb_spec name "list_tables") as [->|_];
    [intros Hin; exfalso; revert Hin; not_listed|].
  destruct (String.eqb_spec name "describe_table") as [->|_];
    [cbv zeta; case_match; intros Hin; exfalso; revert Hin; not_listed|].
  destruct (String.eqb_spec name "run_query") as [->|_];
    [|intros Hin; exfalso; revert Hin; not_listed].
  cbv zeta.
  destruct (default PyNone (arguments !! "query")) as [|b|z|q|o t] eqn:Hq;
    destruct (py_truthy _) eqn:Ht;
    try (intros Hin; exfalso; revert Hin; not_listed).
  destruct (is_read_query q) eqn:Hr;
    [intros Hin; exfalso; revert Hin; not_listed|].
  intros _. split; [reflexivity|]. exists q.
  split; [by apply default_lookup_str|]. split; [|done].
  intros ->. discriminate Ht.
Qed.

(** The plans with a statement in them, and the statement. *)
Lemma plan_execute name arguments sql :
  EExecute sql ∈ plan name arguments ->
  (name = "list_tables" /\ sql = LIST_TABLES_SQL)
  \/ (name = "describe_table"
      /\ exists t, arguments !! "table_name" = Some t /\ py_truthy t = true
                   /\ sql = "PRAGMA table_info(" +:+ py_str t +:+ ")")
  \/ (name = "run_query" /\ sql ≠ "" /\ arguments !! "query" = Some (PyStr sql)).
Proof.
  unfold plan.
  destruct (String.eqb_spec name "list_tables") as [->|_].
  { intros Hin. left. split; [reflexivity|].
    repeat (apply elem_of_cons in Hin as [Hin|Hin]; [by simplify_eq|]).
    by apply elem_of_nil in Hin. }
  destruct (String.eqb_spec name "describe_table") as [->|_].
  { cbv zeta. destruct (arguments !! "table_name") as [t|] eqn:Ha; cbn [from_option id].
    - destruct (py_truthy t) eqn:Ht; intros Hin.
      + right; left. split; [reflexivity|]. exists t. repeat split; [exact Ht|].
        repeat (apply elem_of_cons in Hin as [Hin|Hin]; [by simplify_eq|]).
        by apply elem_of_nil in Hin.
      + exfalso; revert Hin; not_listed.
    - intros Hin. exfalso; revert Hin; not_listed. }
  destruct (String.eqb_spec name "run_query") as [->|_];
    [|intros Hin; exfalso; revert Hin; not_listed].
  cbv zeta.
  destruct (default PyNone (arguments !! "query")) as [|b|z|q|o t] eqn:Hq;
    destruct (py_truthy _) eqn:Ht;
    try (intros Hin; exfalso; revert Hin; not_listed).
  intros Hin. right; right. split; [reflexivity|].
  assert (sql = q) as ->.
  { repeat (apply elem_of_cons in Hin as [Hin|Hin];
            [first [by simplify_eq | by destruct (is_read_query q)]|]).
    by apply elem_of_nil in Hin. }
  split; [intros ->; discriminate Ht | by apply default_lookup_str].
Qed.

(** An initial segment of a four-step plan that holds its third step
    holds the first three. *)
Lemma prefix_of_third {A : Type} (tr : list A) (a b c d : A) :
  tr `prefix_of` [a; b; c; d] -> c ∈ tr -> c ≠ a -> c ≠ b ->
  exists k, tr = [a; b; c] ++ k.
Proof.
  intros [k Hk] Hc Ha Hb.
  destruct tr as [|x1 [|x2 [|x3 tr]]]; simplify_eq/=.
  - by apply elem_of_nil in Hc.
  - apply elem_of_cons in Hc as [->|Hc]; [done | by apply elem_of_nil in Hc].
  - repeat (apply elem_of_cons in Hc as [->|Hc]; [done|]). by apply elem_of_nil in Hc.
  - by exists tr.
Qed.

Section Runs.
Context `{Engine}.
Implicit Types (w : World) (arguments : gmap string PyVal) (name : string).

(** The calls a call made are what its trace has gained. *)
Lemma new_events name arguments w r w' tr :
  call_tool name arguments w = (r, w') ->
  trace w' = trace w ++ tr ->
  exists body, r = Ok (text_reply body)
               /\ call_outcome (file_exists w) name arguments tr body.
Proof.
  intros Hcall Htr.
  destruct (call_tool_events _ _ _ _ _ Hcall) as (body & tr' & -> & _ & Htr' & Hout).
  rewrite Htr' in Htr. apply app_inv_head in Htr as ->. by exists body.
Qed.

(** X1. Whatever the engine does, the calls a run of [call_tool] makes
    on it are an initial segment of the plan of the tool: none when the
    database file is missing, and otherwise at least the [connect]. So a
    call opens at most one connection, runs at most one statement, and
    makes the calls in the order of the plan. *)
Theorem calls_follow_the_plan name arguments w r w' :
  call_tool name arguments w = (r, w') ->
  exists tr,
    trace w' = trace w ++ tr
    /\ tr `prefix_of` plan name arguments
    /\ (tr = [] <-> file_exists w = false).
Proof.
  intros Hcall.
  destruct (call_tool_events _ _ _ _ _ Hcall) as (body & tr & _ & _ & Htr & Hout).
  exists tr. split; [exact Htr|]. unfold call_outcome in Hout.
  destruct (file_exists w).
  - destruct Hout as [(-> & _) | (Hpre & Hne & _)].
    + split; [done|]. destruct (plan_head name arguments) as [rest ->].
      split; [discriminate | discriminate].
    + split; [exact Hpre|]. split; [done | discriminate].
  - destruct Hout as [-> _]. split; [by exists (plan name arguments) | done].
Qed.


(** X3. [commit] is called only by [run_query], only for a non-empty
    statement that is not classified as a read, and only after that
    statement has been executed; such a call does not fetch. In
    particular a statement classified as a read is never committed. *)
Theorem commit_only_for_mutations name arguments w r w' tr :
  call_tool name arguments w = (r, w') ->
  trace w' = trace w ++ tr ->
  ECommit ∈ tr ->
  name = "run_query"
  /\ exists q, arguments !! "query" = Some (PyStr q)
               /\ q ≠ ""
               /\ is_read_query q = false
               /\ (exists k, tr = [EConnect; EExecute q; ECommit] ++ k)
               /\ EFetchAll ∉ tr.
Proof.
  intros Hcall Htr Hin.
  destruct (new_events _ _ _ _ _ _ Hcall Htr) as (body & _ & Hout).
  assert (tr `prefix_of` plan name arguments) as Hpre.
  { unfold call_outcome in Hout. destruct (file_exists w).
    - by destruct Hout as [(-> & _) | (Hpre & _)].
    - destruct Hout as [-> _]. by apply elem_of_nil in Hin. }
  destruct (plan_commit _ _ (prefix_of_elem _ _ _ Hpre Hin))
    as (-> & q & Hq & Hne & Hread & Hplan).
  split; [reflexivity|]. exists q. rewrite Hplan in Hpre.
  repeat split; try done.
  - by apply (prefix_of_third _ _ _ _ _ Hpre Hin).
  - intros Hf. pose proof (prefix_of_elem _ _ _ Hpre Hf) as Hf'.
    revert Hf'. not_listed.
Qed.

(** X4. The statement a call hands to the engine is the catalogue query
    for [list_tables], "PRAGMA table_info(" followed by [str()] of the
    table name and ")" for [describe_table], with nothing escaped, and
    for [run_query] the caller's text, character for character. *)
Theorem executed_statement name arguments w r w' tr sql :
  call_tool name arguments w = (r, w') ->
  trace w' = trace w ++ tr ->
  EExecute sql ∈ tr ->
  (name = "list_tables" /\ sql = LIST_TABLES_SQL)
  \/ (name = "describe_table"
      /\ exists t, arguments !! "table_name" = Some t /\ py_truthy t = true
                   /\ sql = "PRAGMA table_info(" +:+ py_str t +:+ ")")
  \/ (name = "run_query" /\ sql ≠ "" /\ arguments !! "query" = Some (PyStr sql)).
Proof.
  intros Hcall Htr Hin.
  destruct (new_events _ _ _ _ _ _ Hcall Htr) as (body & _ & Hout).
  apply plan_execute. unfold call_outcome in Hout. destruct (file_exists w).
  - destruct Hout as [(-> & _) | (Hpre & _)]; [exact Hin|].
    exact (prefix_of_elem _ _ _ Hpre Hin).
  - destruct Hout as [-> _]. by apply elem_of_nil in Hin.
Qed.

(** X5. Every reply begins either with one of the texts with which the
    tool's successful replies begin, or with "Error: " or "SQLite error:
    ", and never with both: the two kinds of reply can be told apart by
    their first characters. *)
Theorem reply_kind name arguments w body w' :
  call_tool name arguments w = (Ok (text_reply body), w') ->
  xorb (startswith body (success_prefixes name)) (is_error_reply body) = true.
Proof.
  intros Hcall.
  destruct (call_tool_events _ _ _ _ _ Hcall)
    as (body' & tr & [= <-] & _ & _ & Hout).
  assert (startswith body (success_prefixes name) = true
          \/ is_error_reply body = true) as [Hs|He].
  { unfold call_outcome in Hout. destruct (file_exists w).
    - destruct Hout as [(_ & _ & Hs) | (_ & _ & _ & _ & He)]; auto.
    - destruct Hout as [_ ->]. right. begins_with. }
  - by rewrite Hs, (success_not_error _ _ Hs).
  - rewrite He. destruct (startswith body (success_prefixes name)) eqn:Hs;
      [|reflexivity].
    by rewrite (success_not_error _ _ Hs) in He.
Qed.

End Runs.

(** ** When a call on the engine raises *)

Section Failures.
Context `{Engine}.
Implicit Types (w : World) (arguments : gmap string PyVal) (name : string).

Lemma handlers_error_text e w :
  handlers e w = (Ok (text_reply (error_text e)), w).
Proof. by destruct e. Qed.

(** A block that raises leaves through the handlers, past line 126. *)
Lemma call_tool_block_raises name arguments w s e w' :
  file_exists w = true ->
  connect (engine w) = (Ok tt, s) ->
  block name arguments (connected w s) = (Raise e, w') ->
  call_tool name arguments w = (Ok (text_reply (error_text e)), w').
Proof.
  intros Hf Hc Hb. rewrite (call_tool_connected _ _ _ _ Hf Hc).
  unfold try_except. rewrite (bind_raise _ _ _ _ _ Hb).
  apply handlers_error_text.
Qed.

(** X6. When the database file is there and [connect] raises, the reply
    is the handler's text for that exception, whatever the tool and its
    arguments: the name and the required argument are not looked at, and
    no further call is made on the engine. *)
Theorem connect_failure_reply name arguments w e s :
  file_exists w = true ->
  connect (engine w) = (Raise e, s) ->
  call_tool name arguments w
  = (Ok (text_reply (error_text e)), connected w s).
Proof.
  intros Hf Hc. rewrite (call_tool_connect_raises _ _ _ _ _ Hf Hc).
  apply handlers_error_text.
Qed.

(** X7. When the statement of a call (of any of the three tools) is
    rejected by [cursor.execute], the reply is the handler's text for
    the exception, "SQLite error: <message>" for an engine error;
    nothing is fetched or committed and the connection is not closed. *)
Theorem execute_failure_reply name arguments w s1 s2 sql e :
  file_exists w = true ->
  connect (engine w) = (Ok tt, s1) ->
  EExecute sql ∈ plan name arguments ->
  execute sql s1 = (Raise e, s2) ->
  call_tool name arguments w
  = (Ok (text_reply (error_text e)), after (EExecute sql) (connected w s1) s2).
Proof.
  intros Hf Hc Hplan He.
  apply (call_tool_block_raises _ _ _ _ _ _ Hf Hc).
  assert (cursor_execute sql (connected w s1)
          = (Raise e, after (EExecute sql) (connected w s1) s2)) as Hx
    by (by apply engine_call_eq).
  unfold block.
  destruct (plan_execute _ _ _ Hplan)
    as [(-> & ->) | [(-> & t & Ha & Ht & ->) | (-> & Hne & Ha)]];
    cbn [String.eqb Ascii.eqb Bool.eqb andb].
  - unfold list_tables_block. by rewrite (bind_raise _ _ _ _ _ Hx).
  - unfold describe_table_block. rewrite Ha. cbv [from_option id]. rewrite Ht.
    cbn [negb]. by rewrite (bind_raise _ _ _ _ _ Hx).
  - unfold run_query_block. rewrite Ha. cbv [from_option id]. cbn [py_truthy].
    apply String.eqb_neq in Hne. rewrite Hne. cbn [negb].
    by rewrite (bind_raise _ _ _ _ _ Hx).
Qed.

(** X8. When a statement that is not classified as a read has been
    executed and [commit] raises, the reply is the handler's text for
    the exception and not the count of affected rows; the connection is
    left open, with the statement executed on it and not committed. *)
Theorem commit_failure_reply arguments w s1 s2 s3 (q : string) e :
  file_exists w = true ->
  connect (engine w) = (Ok tt, s1) ->
  arguments !! "query" = Some (PyStr q) ->
  q ≠ "" ->
  is_read_query q = false ->
  execute q s1 = (Ok tt, s2) ->
  commit s2 = (Raise e, s3) ->
  call_tool "run_query" arguments w
  = (Ok (text_reply (error_text e)),
     after ECommit (after (EExecute q) (connected w s1) s2) s3).
Proof.
  intros Hf Hc Ha Hne Hq He Hm.
  apply (call_tool_block_raises _ _ _ _ _ _ Hf Hc).
  unfold block. cbn [String.eqb Ascii.eqb Bool.eqb andb].
  unfold run_query_block. rewrite Ha. cbv [from_option id]. cbn [py_truthy].
  apply String.eqb_neq in Hne. rewrite Hne. cbn [negb].
  rewrite (bind_ok _ _ _ tt (after (EExecute q) (connected w s1) s2))
    by (by apply engine_call_eq).
  rewrite Hq.
  by rewrite (bind_raise _ _ _ e
                (after ECommit (after (EExecute q) (connected w s1) s2) s3))
    by (by apply engine_call_eq).
Qed.

(** X9. A [query] that is truthy and not a string (a number, a list
    ...) is handed to [cursor.execute], which takes strings only: the
    reply is "Error: " followed by the interpreter's message, no
    statement reaches the engine, and the connection is left open. *)
Theorem non_string_query_reply arguments w s (v : PyVal) :
  file_exists w = true ->
  connect (engine w) = (Ok tt, s) ->
  arguments !! "query" = Some v ->
  py_truthy v = true ->
  (forall q, v ≠ PyStr q) ->
  call_tool "run_query" arguments w
  = (Ok (text_reply ("Error: " +:+ msg_execute_arg v)), connected w s).
Proof.
  intros Hf Hc Ha Ht Hv.
  apply (call_tool_block_raises _ _ _ _ (OtherError (msg_execute_arg v)) _ Hf Hc).
  unfold block. cbn [String.eqb Ascii.eqb Bool.eqb andb].
  unfold run_query_block. rewrite Ha. cbv [from_option id]. rewrite Ht. cbn [negb].
  destruct v as [|b|z|q|o t]; try reflexivity. by destruct (Hv q).
Qed.

(** X10. The check of a required argument is a test of truth: an
    argument that is present but is [None], [False], [0] or the empty
    string is answered like a missing one, "Error: <param> is required",
    and no statement is run. *)
Theorem falsy_argument_rejected arguments w s (v : PyVal) :
  file_exists w = true ->
  connect (engine w) = (Ok tt, s) ->
  v ∈ [PyNone; PyBool false; PyInt 0; PyStr ""] ->
  (arguments !! "table_name" = Some v ->
   call_tool "describe_table" arguments w
   = (Ok (text_reply "Error: table_name is required"), connected w s))
  /\ (arguments !! "query" = Some v ->
      call_tool "run_query" arguments w
      = (Ok (text_reply "Error: query is required"), connected w s)).
Proof.
  intros Hf Hc Hv.
  assert (py_truthy v = false) as Ht.
  { repeat (apply elem_of_cons in Hv as [->|Hv]; [reflexivity|]).
    by apply elem_of_nil in Hv. }
  split; intros Ha.
  - apply describe_table_falsy; [done..|]. by rewrite Ha.
  - apply run_query_falsy; [done..|]. by rewrite Ha.
Qed.


End Failures.

(** ** Which statements are reads *)

Lemma tolower_isspace (c : ascii) : isspace (tolower c) = isspace c.
Proof. destruct c as [[] [] [] [] [] [] [] []]; reflexivity. Qed.

Lemma lower_append (a b : string) : lower (a +:+ b) = lower a +:+ lower b.
Proof.
  induction a as [|c a IH]; cbn [lower String.append]; [reflexivity|].
  by rewrite IH.
Qed.

Lemma lstrip_lower (s : string) : lstrip (lower s) = lower (lstrip s).
Proof.
  induction s as [|c s IH]; cbn [lower lstrip]; [reflexivity|].
  rewrite tolower_isspace. destruct (isspace c); [exact IH | reflexivity].
Qed.

Lemma rstrip_lower (s : string) : rstrip (lower s) = lower (rstrip s).
Proof.
  induction s as [|c s IH]; cbn [lower rstrip]; [reflexivity|].
  rewrite IH, tolower_isspace.
  destruct (rstrip s); cbn [lower]; [by destruct (isspace c) | reflexivity].
Qed.

(** What [rstrip] takes away comes after every character that is not
    white space. *)
Lemma prefix_rstrip (s : string) : forall p,
  no_space p = true -> String.prefix p (rstrip s) = String.prefix p s.
Proof.
  induction s as [|c s IH]; intros p Hp; [reflexivity|].
  destruct p as [|d p]; [by rewrite !prefix_nil|].
  cbn [no_space] in Hp. apply andb_true_iff in Hp as [Hd Hp].
  apply negb_true_iff in Hd. specialize (IH p Hp).
  cbn [rstrip]. destruct (rstrip s) as [|a r].
  - destruct (isspace c) eqn:Hc; simpl.
    + destruct (ascii_dec d c) as [->|]; [congruence | reflexivity].
    + destruct (ascii_dec d c); [exact IH | reflexivity].
  - simpl. destruct (ascii_dec d c); [exact IH | reflexivity].
Qed.

(** The test of line 107 looks at the text after the leading white space
    only. *)
Lemma is_read_query_leading (q : string) :
  is_read_query q = startswith (lower (lstrip q)) ["select"; "pragma"].
Proof.
  unfold is_read_query, strip, startswith. cbn [existsb].
  by rewrite <- rstrip_lower, !prefix_rstrip.
Qed.

Lemma lstrip_split (q : string) :
  exists ws, q = ws +:+ lstrip q /\ all_space ws = true.
Proof.
  induction q as [|c q (ws & Hq & Hws)]; [by exists ""|].
  cbn [lstrip]. destruct (isspace c) eqn:Hc; [|by exists ""].
  exists (String c ws). cbn [String.append all_space]. by rewrite <- Hq, Hc, Hws.
Qed.

Lemma lstrip_all_space (ws s : string) :
  all_space ws = true -> lstrip (ws +:+ s) = lstrip s.
Proof.
  induction ws as [|c ws IH]; cbn [all_space String.append lstrip]; [done|].
  intros Hws. apply andb_true_iff in Hws as [-> Hws]. by apply IH.
Qed.

Lemma prefix_lower_split (p : string) : forall s,
  String.prefix p (lower s) = true ->
  exists kw rest, s = kw +:+ rest /\ lower kw = p.
Proof.
  induction p as [|d p IH]; intros s Hp; [by exists "", s|].
  destruct s as [|c s]; [discriminate|]. cbn [lower] in Hp.
  simpl in Hp. destruct (ascii_dec d (tolower c)) as [->|]; [|discriminate].
  destruct (IH _ Hp) as (kw & rest & -> & <-).
  by exists (String c kw), rest.
Qed.

(** A text that lower-cases to a keyword and what follows it. *)
Lemma keyword_is_read (kw rest p : string) :
  lower kw = p -> no_space p = true -> p ≠ "" ->
  String.prefix p (lower (lstrip (kw +:+ rest))) = true.
Proof.
  intros Hkw Hp Hne. destruct kw as [|c kw]; [by subst p|].
  subst p. cbn [lower no_space] in Hp. apply andb_true_iff in Hp as [Hc _].
  apply negb_true_iff in Hc. rewrite tolower_isspace in Hc.
  cbn [String.append lstrip]. rewrite Hc.
  change (String c (kw +:+ rest)) with (String c kw +:+ rest).
  rewrite lower_append. apply prefix_append.
Qed.

Lemma is_read_query_iff (q : string) :
  is_read_query q = true
  <-> exists ws kw rest,
        q = ws +:+ kw +:+ rest /\ all_space ws = true
        /\ (lower kw = "select" \/ lower kw = "pragma").
Proof.
  rewrite is_read_query_leading. unfold startswith. cbn [existsb]. split.
  - intros Hp. destruct (lstrip_split q) as (ws & Hq & Hws).
    apply orb_true_iff in Hp as [Hp|Hp];
      [|apply orb_true_iff in Hp as [Hp|Hp]; [|discriminate]];
      destruct (prefix_lower_split _ _ Hp) as (kw & rest & Hs & Hkw);
      exists ws, kw, rest; rewrite <- Hs; auto.
  - intros (ws & kw & rest & -> & Hws & [Hkw|Hkw]);
      rewrite (lstrip_all_space _ _ Hws);
      rewrite (keyword_is_read _ _ _ Hkw) by done;
      [reflexivity | by rewrite orb_true_r].
Qed.

(** X12. A statement is classified as a read exactly when it is white
    space, then six characters that lower-case to "select" or to
    "pragma", then anything at all. *)
Theorem read_statements (q : string) :
  is_read_query q = true
  <-> exists ws kw rest,
        q = ws +:+ kw +:+ rest /\ all_space ws = true
        /\ (lower kw = "select" \/ lower kw = "pragma").
Proof. apply is_read_query_iff. Qed.

(** X13. What follows the keyword plays no part: a statement classified
    as a read stays one whatever is appended to it. *)
Theorem read_whatever_follows (q rest : string) :
  is_read_query q = true -> is_read_query (q +:+ rest) = true.
Proof.
  intros Hq. apply is_read_query_iff in Hq as (ws & kw & rest' & -> & Hws & Hkw).
  apply is_read_query_iff. exists ws, kw, (rest' +:+ rest).
  by rewrite !append_assoc.
Qed.

(** X14. The classification does not depend on the case of letters: two
    statements with the same lower-case form are classified alike. *)
Theorem read_whatever_the_case (q1 q2 : string) :
  lower q1 = lower q2 -> is_read_query q1 = is_read_query q2.
Proof.
  intros Hl. rewrite !is_read_query_leading.
  by rewrite <- !lstrip_lower, Hl.
Qed.

(** ** The registry and the dispatcher *)

Section Registry.
Context `{Engine}.
Implicit Types (w : World) (arguments : gmap string PyVal) (name : string).

Lemma call_tool_unknown name arguments w s :
  file_exists w = true ->
  connect (engine w) = (Ok tt, s) ->
  name ≠ "list_tables" -> name ≠ "describe_table" -> name ≠ "run_query" ->
  call_tool name arguments w
  = (Ok (text_reply ("Unknown tool: " +:+ name)),
     after EClose (connected w s) (close s)).
Proof.
  intros Hf Hc Hl Hd Hr.
  rewrite (call_tool_block _ _ _ _ (Falls ("Unknown tool: " +:+ name))
             (connected w s) Hf Hc); [reflexivity|].
  unfold block. apply String.eqb_neq in Hl, Hd, Hr. by rewrite Hl, Hd, Hr.
Qed.

(** X15. The names [list_tools] advertises are the names [call_tool]
    dispatches: with the database file in place and the connection
    opened, the reply to a call is "Unknown tool: <name>" exactly when
    the name is not that of an advertised tool. *)
Theorem advertised_tools_are_dispatched name arguments w s body w' :
  file_exists w = true ->
  connect (engine w) = (Ok tt, s) ->
  call_tool name arguments w = (Ok (text_reply body), w') ->
  body = "Unknown tool: " +:+ name <-> name ∉ map tool_name list_tools.
Proof.
  intros Hf Hc Hcall. split.
  - intros -> Hin.
    destruct (call_tool_events _ _ _ _ _ Hcall)
      as (body & tr & [= <-] & _ & _ & Hout).
    unfold call_outcome in Hout. rewrite Hf in Hout.
    assert (startswith ("Unknown tool: " +:+ name) (success_prefixes name) = false
            /\ is_error_reply ("Unknown tool: " +:+ name) = false) as [Hs He].
    { cbn [map list_tools tool_name] in Hin.
      repeat (apply elem_of_cons in Hin as [->|Hin]; [by split|]).
      by apply elem_of_nil in Hin. }
    destruct Hout as [(_ & _ & Hs') | (_ & _ & _ & _ & He')].
    + discriminate (eq_trans (eq_sym Hs') Hs).
    + discriminate (eq_trans (eq_sym He') He).
  - intros Hn. cbn [map list_tools tool_name] in Hn.
    rewrite (call_tool_unknown name arguments w s Hf Hc) in Hcall.
    + by injection Hcall as <- _.
    + intros ->. apply Hn. repeat constructor.
    + intros ->. apply Hn. repeat constructor.
    + intros ->. apply Hn. repeat constructor.
Qed.

(** X16. Every argument that the schema of an advertised tool requires
    is checked by [call_tool]: with the database file in place and the
    connection opened, a call of the tool without that argument is
    answered "Error: <argument> is required". *)
Theorem required_arguments_are_checked (t : Tool) (key : string) arguments w s :
  t ∈ list_tools ->
  key ∈ required_arguments t ->
  file_exists w = true ->
  connect (engine w) = (Ok tt, s) ->
  arguments !! key = None ->
  call_tool (tool_name t) arguments w
  = (Ok (text_reply ("Error: " +:+ key +:+ " is required")), connected w s).
Proof.
  intros Ht Hkey Hf Hc Ha. unfold list_tools in Ht.
  repeat (apply elem_of_cons in Ht as [->|Ht]);
    [| | | by apply elem_of_nil in Ht];
    cbn in Hkey;
    repeat (apply elem_of_cons in Hkey as [->|Hkey]);
    try (by apply elem_of_nil in Hkey).
  - apply describe_table_falsy; [done..|]. by rewrite Ha.
  - apply run_query_falsy; [done..|]. by rewrite Ha.
Qed.

End Registry.


(** ** The further properties on the small engines *)

(** [e] is one of the listed events. *)
Ltac listed := repeat first [apply list_elem_of_here | apply list_elem_of_further].

Lemma calls_follow_the_plan_witness :
  exists tr,
    trace (snd rejected_run) = trace (Toy.world []) ++ tr
    /\ tr `prefix_of` plan "run_query" (query_args "DROP")
    /\ (tr = [] <-> file_exists (Toy.world []) = false).
Proof.
  apply (@calls_follow_the_plan Toy.toy "run_query" (query_args "DROP")
           (Toy.world []) (fst rejected_run) (snd rejected_run)).
  vm_compute. reflexivity.
Defined.


Lemma commit_only_for_mutations_witness :
  "run_query" = "run_query"
  /\ exists q, query_args "INSERT INTO t(x) VALUES (1)" !! "query" = Some (PyStr q)
               /\ q ≠ ""
               /\ is_read_query q = false
               /\ (exists k, [EConnect; EExecute "INSERT INTO t(x) VALUES (1)";
                              ECommit; EClose]
                             = [EConnect; EExecute q; ECommit] ++ k)
               /\ EFetchAll ∉ [EConnect; EExecute "INSERT INTO t(x) VALUES (1)";
                               ECommit; EClose].
Proof.
  apply (@commit_only_for_mutations Toy.toy "run_query"
           (query_args "INSERT INTO t(x) VALUES (1)") (Toy.world [])
           (fst insert_run) (snd insert_run)).
  - vm_compute. reflexivity.
  - vm_compute. reflexivity.
  - listed.
Defined.

Lemma executed_statement_witness :
  ("describe_table" = "list_tables" /\ "PRAGMA table_info(t)" = LIST_TABLES_SQL)
  \/ ("describe_table" = "describe_table"
      /\ exists t, table_args "t" !! "table_name" = Some t /\ py_truthy t = true
                   /\ "PRAGMA table_info(t)" = "PRAGMA table_info(" +:+ py_str t +:+ ")")
  \/ ("describe_table" = "run_query" /\ "PRAGMA table_info(t)" ≠ ""
      /\ table_args "t" !! "query" = Some (PyStr "PRAGMA table_info(t)")).
Proof.
  apply (@executed_statement Toy.toy "describe_table" (table_args "t") (Toy.world [])
           (fst (call_tool "describe_table" (table_args "t") (Toy.world [])))
           (snd (call_tool "describe_table" (table_args "t") (Toy.world [])))
           [EConnect; EExecute "PRAGMA table_info(t)"; EFetchAll; EClose]).
  - vm_compute. reflexivity.
  - vm_compute. reflexivity.
  - listed.
Defined.

Lemma reply_kind_witness :
  xorb (startswith ("Tables in database:" +:+ nl +:+ "- t")
          (success_prefixes "list_tables"))
       (is_error_reply ("Tables in database:" +:+ nl +:+ "- t")) = true.
Proof.
  apply (@reply_kind Toy.toy "list_tables" ∅ (Toy.world []) _
           (snd (call_tool "list_tables" ∅ (Toy.world [])))).
  vm_compute. reflexivity.
Defined.

Lemma connect_failure_reply_witness :
  call_tool "describe_table" ∅ Toy.unopenable
  = (Ok (text_reply "SQLite error: unable to open database file"),
     connected Toy.unopenable (engine Toy.unopenable)).
Proof.
  apply (@connect_failure_reply Toy.toy "describe_table" ∅ Toy.unopenable
           (SqliteError "unable to open database file")); reflexivity.
Defined.

Lemma execute_failure_reply_witness :
  call_tool "run_query" (query_args "DROP") (Toy.world [])
  = (Ok (text_reply "SQLite error: syntax error"),
     after (EExecute "DROP") (connected (Toy.world []) (Toy.db [])) (Toy.db [])).
Proof.
  apply (@execute_failure_reply Toy.toy "run_query" (query_args "DROP")
           (Toy.world []) (Toy.db []) (Toy.db []) "DROP" (SqliteError "syntax error")).
  - reflexivity.
  - reflexivity.
  - assert (plan "run_query" (query_args "DROP")
            = [EConnect; EExecute "DROP"; ECommit; EClose]) as ->
      by (vm_compute; reflexivity).
    listed.
  - reflexivity.
Defined.

Lemma commit_failure_reply_witness :
  call_tool "run_query" (query_args "UPDATE t SET x = 2") Busy.world
  = (Ok (text_reply "SQLite error: database is locked"),
     @mkWorld Busy.busy true
       [EConnect; EExecute "UPDATE t SET x = 2"; ECommit]
       [EConnect; EExecute "UPDATE t SET x = 2"; ECommit]).
Proof.
  apply (@commit_failure_reply Busy.busy (query_args "UPDATE t SET x = 2") Busy.world
           [EConnect] [EConnect; EExecute "UPDATE t SET x = 2"]
           [EConnect; EExecute "UPDATE t SET x = 2"; ECommit]
           "UPDATE t SET x = 2" (SqliteError "database is locked")).
  - reflexivity.
  - reflexivity.
  - apply query_args_lookup.
  - discriminate.
  - reflexivity.
  - reflexivity.
  - reflexivity.
Defined.

Lemma non_string_query_reply_witness :
  call_tool "run_query" number_query_args (Toy.world [])
  = (Ok (text_reply "Error: execute() argument 1 must be str, not int"),
     connected (Toy.world []) (Toy.db [])).
Proof.
  apply (@non_string_query_reply Toy.toy number_query_args (Toy.world [])
           (Toy.db []) (PyInt 5)).
  - reflexivity.
  - reflexivity.
  - apply lookup_singleton_eq.
  - reflexivity.
  - discriminate.
Defined.

Lemma falsy_argument_rejected_witness :
  call_tool "describe_table" zero_args (Toy.world [])
  = (Ok (text_reply "Error: table_name is required"),
     connected (Toy.world []) (Toy.db []))
  /\ call_tool "run_query" zero_args (Toy.world [])
     = (Ok (text_reply "Error: query is required"),
        connected (Toy.world []) (Toy.db [])).
Proof.
  destruct (@falsy_argument_rejected Toy.toy zero_args (Toy.world []) (Toy.db [])
              (PyInt 0) eq_refl eq_refl ltac:(listed)) as [Hd Hq].
  split; [apply Hd | apply Hq]; vm_compute; reflexivity.
Defined.


Lemma read_whatever_follows_witness :
  is_read_query ("select 1" +:+ "; DROP TABLE t") = true.
Proof. apply read_whatever_follows. reflexivity. Defined.

Lemma read_whatever_the_case_witness :
  is_read_query "SeLeCt 1" = is_read_query "select 1".
Proof. apply read_whatever_the_case. reflexivity. Defined.

Lemma advertised_tools_are_dispatched_witness :
  "Unknown tool: drop_table" = "Unknown tool: " +:+ "drop_table"
  <-> "drop_table" ∉ map tool_name list_tools.
Proof.
  apply (@advertised_tools_are_dispatched Toy.toy "drop_table" ∅ (Toy.world [])
           (Toy.db []) "Unknown tool: drop_table"
           (snd (call_tool "drop_table" ∅ (Toy.world [])))).
  - reflexivity.
  - reflexivity.
  - vm_compute. reflexivity.
Defined.

Lemma required_arguments_are_checked_witness :
  call_tool "describe_table" ∅ (Toy.world [])
  = (Ok (text_reply "Error: table_name is required"),
     connected (Toy.world []) (Toy.db [])).
Proof.
  apply (@required_arguments_are_checked Toy.toy
           {| tool_name := "describe_table";
              tool_description := "Get table structure/schema";
              inputSchema := DescribeTableArgs |}
           "table_name" ∅ (Toy.world []) (Toy.db [])).
  - unfold list_tools. listed.
  - cbn. listed.
  - reflexivity.
  - reflexivity.
  - apply lookup_empty.
Defined.

